(** * Inkguiding: the overlay canvas, its interaction state machine and the
      loader of persisted guides.

    A shallow embedding of [src/Inkguiding.py]:
    - [Guide] (the dataclass), [OverlayCanvas] (its four attributes that the
      handlers read and write, plus [_last_mouse_pos]);
    - the public mutators [setInteractive], [addGuide], [removeGuideAt],
      [clearGuides], [setGuides];
    - the hit test [_findGuideAt] and the handlers [mousePressEvent],
      [mouseMoveEvent], [mouseReleaseEvent], [leaveEvent];
    - [ControlPanel._emit_add] and the guide loop of
      [MainWindow._load_settings];
    - [Guide.to_pen] and [paintEvent] (the lines drawn and the calls that set
      up their pens, with the conversion of their integers to C [int]);
    - the mode switches of [MainWindow]: [_apply_clickthrough],
      [_apply_modes], [toggleSettingsMode], [toggleGuidesVisibility];
    - the guides written by [_save_settings] and read back.

    Python integers are [Z].  Python exceptions are the [Raise] branch of
    [result]; list subscripting and [del] follow Python, negative subscripts
    included.  Calls into Qt that only ask for a repaint or emit the
    payload-free [guideChanged] signal ([update()], [guideChanged.emit()]) do
    not touch the attributes modelled here and are left out. *)

From stdpp Require Import base option list strings gmap.
From Stdlib Require Import ZArith Lia.

Local Open Scope Z_scope.
Local Open Scope string_scope.
Local Open Scope list_scope.

(** ** Exceptions *)

Inductive exn : Type :=
  | IndexError
  | TypeError.

Inductive result (A : Type) : Type :=
  | Ok (a : A)
  | Raise (e : exn).
Arguments Ok {A} a.
Arguments Raise {A} e.

#[global] Instance result_ret : MRet result := fun A a => Ok a.

#[global] Instance result_bind : MBind result := fun A B k r =>
  match r with
  | Ok a => k a
  | Raise e => Raise e
  end.

(** [try: body except Exception: handler] *)
Definition try_except {A : Type} (body : result A) (handler : result A) : result A :=
  match body with
  | Ok a => Ok a
  | Raise _ => handler
  end.

(** ** Python lists *)

Module PyList.
Section ops.
Context {A : Type}.

Definition len (l : list A) : Z := Z.of_nat (length l).

(** The position that Python resolves the subscript [i] to: a negative
    subscript counts from the end, anything outside [-len, len) raises
    [IndexError]. *)
Definition resolve (l : list A) (i : Z) : result nat :=
  if bool_decide (0 <= i < len l) then Ok (Z.to_nat i)
  else if bool_decide (- len l <= i < 0) then Ok (Z.to_nat (i + len l))
  else Raise IndexError.

(** [del l[i]] *)
Definition delitem (l : list A) (i : Z) : result (list A) :=
  k ← resolve l i; Ok (delete k l).

(** [g = l[i]] followed by assignments to attributes of [g]: the object
    stored at [i] is mutated in place, which the list sees as the element at
    [i] replaced by [f g]. *)
Definition mutate_at (l : list A) (i : Z) (f : A -> A) : result (list A) :=
  k ← resolve l i;
  match l !! k with
  | Some g => Ok (<[k := f g]> l)
  | None => Raise IndexError
  end.

End ops.
End PyList.

(** ** Module constants *)

Definition GUIDE_HIT_RADIUS : Z := 15.
Definition GUIDE_DRAG_RADIUS : Z := 20.

(** ** The Guide dataclass *)

Definition Color : Type := Z * Z * Z * Z.

Record Guide : Type := mkGuide {
  orientation : string;
  pos : Z;
  color : Color;
  thickness : Z;
  style_name : string
}.

(** [Guide(orientation, pos)]: the three remaining fields take the defaults
    written in the dataclass. *)
Definition Guide2 (o : string) (p : Z) : Guide :=
  mkGuide o p (255, 140, 0, 255) 2 "Solid".

Definition set_pos (p : Z) (g : Guide) : Guide :=
  mkGuide (orientation g) p (color g) (thickness g) (style_name g).

(** ** Qt events *)

Inductive MouseButton : Type :=
  | LeftButton
  | RightButton
  | MiddleButton
  | OtherButton.

Definition ShiftModifier : Z := 0x02000000.

Record QMouseEvent : Type := mkEvent {
  button : MouseButton;
  modifiers : Z;
  ev_x : Z;
  ev_y : Z
}.

Definition ev_pos (e : QMouseEvent) : Z * Z := (ev_x e, ev_y e).

(** ** OverlayCanvas *)

Record OverlayCanvas : Type := mkCanvas {
  _guides : list Guide;
  _hover_idx : option Z;
  _positioning_idx : option Z;
  _interactive : bool;
  _last_mouse_pos : option (Z * Z)
}.

(** [OverlayCanvas.__init__]; [_last_mouse_pos] does not exist until the
    first mouse event assigns it. *)
Definition init : OverlayCanvas := mkCanvas [] None None false None.

Definition with_guides (gs : list Guide) (c : OverlayCanvas) : OverlayCanvas :=
  mkCanvas gs (_hover_idx c) (_positioning_idx c) (_interactive c) (_last_mouse_pos c).

Definition with_hover_idx (h : option Z) (c : OverlayCanvas) : OverlayCanvas :=
  mkCanvas (_guides c) h (_positioning_idx c) (_interactive c) (_last_mouse_pos c).

Definition with_positioning_idx (p : option Z) (c : OverlayCanvas) : OverlayCanvas :=
  mkCanvas (_guides c) (_hover_idx c) p (_interactive c) (_last_mouse_pos c).

Definition with_interactive (b : bool) (c : OverlayCanvas) : OverlayCanvas :=
  mkCanvas (_guides c) (_hover_idx c) (_positioning_idx c) b (_last_mouse_pos c).

Definition with_last_mouse_pos (p : Z * Z) (c : OverlayCanvas) : OverlayCanvas :=
  mkCanvas (_guides c) (_hover_idx c) (_positioning_idx c) (_interactive c) (Some p).

Definition setInteractive (enabled : bool) (c : OverlayCanvas) : OverlayCanvas :=
  let c := with_interactive enabled c in
  if negb enabled then
    let c := with_positioning_idx None c in
    with_hover_idx None c
  else c.

Definition addGuide (guide : Guide) (c : OverlayCanvas) : OverlayCanvas :=
  with_guides (_guides c ++ [guide]) c.

Definition removeGuideAt (index : Z) (c : OverlayCanvas) : result OverlayCanvas :=
  if bool_decide (0 <= index < PyList.len (_guides c)) then
    gs ← PyList.delitem (_guides c) index;
    let c := with_guides gs c in
    let c :=
      match _positioning_idx c with
      | Some p =>
          if bool_decide (p = index) then with_positioning_idx None c
          else if bool_decide (p > index) then with_positioning_idx (Some (p - 1)) c
          else c
      | None => c
      end in
    let c :=
      match _hover_idx c with
      | Some h =>
          if bool_decide (h = index) then with_hover_idx None c
          else if bool_decide (h > index) then with_hover_idx (Some (h - 1)) c
          else c
      | None => c
      end in
    Ok c
  else Ok c.

Definition clearGuides (c : OverlayCanvas) : OverlayCanvas :=
  match _guides c with
  | _ :: _ =>
      let c := with_guides [] c in
      let c := with_positioning_idx None c in
      with_hover_idx None c
  | [] => c
  end.

Definition guides (c : OverlayCanvas) : list Guide := _guides c.

Definition setGuides (gs : list Guide) (c : OverlayCanvas) : OverlayCanvas :=
  let c := with_guides gs c in
  let c := with_positioning_idx None c in
  with_hover_idx None c.

(** The loop of [_findGuideAt]; [i] is the counter of [enumerate]. *)
Fixpoint findGuideAt_loop (radius : Z) (p : Z * Z) (i : Z) (gs : list Guide) : option Z :=
  match gs with
  | [] => None
  | g :: gs' =>
      if bool_decide (orientation g = "v") && bool_decide (Z.abs (p.1 - pos g) <= radius)
      then Some i
      else if bool_decide (orientation g = "h") && bool_decide (Z.abs (p.2 - pos g) <= radius)
      then Some i
      else findGuideAt_loop radius p (i + 1) gs'
  end.

Definition _findGuideAt (c : OverlayCanvas) (p : Z * Z) (use_drag_radius : bool) : option Z :=
  let radius := if use_drag_radius then GUIDE_DRAG_RADIUS else GUIDE_HIT_RADIUS in
  findGuideAt_loop radius p 0 (_guides c).

Definition mousePressEvent (e : QMouseEvent) (c : OverlayCanvas) : result OverlayCanvas :=
  if negb (_interactive c) then Ok c
  else
    let c := with_last_mouse_pos (ev_pos e) c in
    match button e with
    | LeftButton =>
        let idx := _findGuideAt c (ev_pos e) true in
        if bool_decide (_positioning_idx c = None) && bool_decide (idx <> None) then
          let c := with_positioning_idx idx c in
          Ok (with_hover_idx idx c)
        else if bool_decide (_positioning_idx c <> None) then
          let c := with_positioning_idx None c in
          Ok (with_hover_idx None c)
        else Ok c
    | RightButton =>
        let idx := _findGuideAt c (ev_pos e) true in
        match idx with
        | Some i =>
            let c :=
              if bool_decide (_positioning_idx c = Some i)
              then with_positioning_idx None c else c in
            removeGuideAt i c
        | None => Ok c
        end
    | MiddleButton =>
        if bool_decide (Z.land (modifiers e) ShiftModifier <> 0)
        then Ok (addGuide (Guide2 "h" (ev_y e)) c)
        else Ok (addGuide (Guide2 "v" (ev_x e)) c)
    | OtherButton => Ok c
    end.

(** [width] and [height] are what [self.width()] and [self.height()] return
    when the event is handled. *)
Definition mouseMoveEvent (width height : Z) (e : QMouseEvent) (c : OverlayCanvas)
  : result OverlayCanvas :=
  if negb (_interactive c) then Ok c
  else
    let c := with_last_mouse_pos (ev_pos e) c in
    match _positioning_idx c with
    | Some p =>
        if bool_decide (p < PyList.len (_guides c)) then
          gs ← PyList.mutate_at (_guides c) p (fun g =>
                 if bool_decide (orientation g = "v")
                 then set_pos (Z.max 0 (Z.min (width - 1) (ev_x e))) g
                 else set_pos (Z.max 0 (Z.min (height - 1) (ev_y e))) g);
          Ok (with_guides gs c)
        else
          let c := with_positioning_idx None c in
          Ok (with_hover_idx None c)
    | None =>
        let idx := _findGuideAt c (ev_pos e) false in
        if bool_decide (idx <> _hover_idx c) then Ok (with_hover_idx idx c)
        else Ok c
    end.

Definition mouseReleaseEvent (e : QMouseEvent) (c : OverlayCanvas) : OverlayCanvas := c.

Definition leaveEvent (c : OverlayCanvas) : OverlayCanvas :=
  if negb (_interactive c) then c
  else if bool_decide (_positioning_idx c = None) && bool_decide (_hover_idx c <> None)
  then with_hover_idx None c
  else c.

(** ** ControlPanel and MainWindow: the style defaults *)

Record ControlPanel : Type := mkPanel {
  _current_color : Color;
  thickness_spin : Z;
  style_combo : string
}.

(** [ControlPanel.__init__]: orange, thickness 2, the first entry of
    [STYLE_NAMES]. *)
Definition panel_init : ControlPanel := mkPanel (255, 140, 0, 255) 2 "Solid".

(** [ControlPanel._emit_add]: [cursor] is [QCursor.pos()], [geo] the origin of
    the primary screen's geometry.  The result is the guide carried by
    [addGuideRequested], which [MainWindow] connects to [canvas.addGuide]. *)
Definition _emit_add (o : string) (cursor geo : Z * Z) (p : ControlPanel) : Guide :=
  let pos := if bool_decide (o = "v") then cursor.1 - geo.1 else cursor.2 - geo.2 in
  mkGuide o (Z.max 0 pos) (_current_color p) (thickness_spin p) (style_combo p).

Record MainWindow : Type := mkWindow {
  canvas : OverlayCanvas;
  panel : ControlPanel;
  _default_color : Color;
  _default_thickness : Z;
  _default_style : string
}.

Definition _set_default_style (name : string) (w : MainWindow) : MainWindow :=
  mkWindow (canvas w) (panel w) (_default_color w) (_default_thickness w) name.

Definition _set_default_color (col : Color) (w : MainWindow) : MainWindow :=
  mkWindow (canvas w) (panel w) col (_default_thickness w) (_default_style w).

Definition _set_default_thickness (t : Z) (w : MainWindow) : MainWindow :=
  mkWindow (canvas w) (panel w) (_default_color w) t (_default_style w).

(** The panel's widgets changing value: the panel stores the value and its
    signal runs the connected [MainWindow] setter. *)
Definition panel_pick_color (col : Color) (w : MainWindow) : MainWindow :=
  let p := mkPanel col (thickness_spin (panel w)) (style_combo (panel w)) in
  _set_default_color col
    (mkWindow (canvas w) p (_default_color w) (_default_thickness w) (_default_style w)).

Definition panel_set_thickness (t : Z) (w : MainWindow) : MainWindow :=
  let p := mkPanel (_current_color (panel w)) t (style_combo (panel w)) in
  _set_default_thickness t
    (mkWindow (canvas w) p (_default_color w) (_default_thickness w) (_default_style w)).

Definition panel_set_style (name : string) (w : MainWindow) : MainWindow :=
  let p := mkPanel (_current_color (panel w)) (thickness_spin (panel w)) name in
  _set_default_style name
    (mkWindow (canvas w) p (_default_color w) (_default_thickness w) (_default_style w)).

(** A click on "Add Vertical/Horizontal @ Cursor": [_emit_add] and the slot
    [canvas.addGuide] connected to [addGuideRequested]. *)
Definition panel_add_clicked (o : string) (cursor geo : Z * Z) (w : MainWindow) : MainWindow :=
  mkWindow (addGuide (_emit_add o cursor geo (panel w)) (canvas w)) (panel w)
    (_default_color w) (_default_thickness w) (_default_style w).

(** Qt delivers a mouse press over the central widget to
    [OverlayCanvas.mousePressEvent]; the handler sees the canvas only. *)
Definition canvas_pressed (e : QMouseEvent) (w : MainWindow) : result MainWindow :=
  c ← mousePressEvent e (canvas w);
  Ok (mkWindow c (panel w) (_default_color w) (_default_thickness w) (_default_style w)).

(** ** Loading the persisted guides *)

#[local] Set Warnings "-register-all".

(** What [json.load] returns, and the tuple of the dataclass default.  A
    number written with a fraction or an exponent is kept as the decimal
    [m * 10 ^ e] of the file; nothing below computes with it. *)
Inductive pyval : Type :=
  | PNone
  | PBool (b : bool)
  | PInt (z : Z)
  | PFloat (m e : Z)
  | PStr (s : string)
  | PList (l : list pyval)
  | PTuple (l : list pyval)
  | PDict (m : gmap string pyval).

(** A [Guide] as the loader builds it: the dataclass checks no types, so each
    field holds the value found in the file. *)
Record GuideObj : Type := mkGuideObj {
  o_orientation : pyval;
  o_pos : pyval;
  o_color : pyval;
  o_thickness : pyval;
  o_style_name : pyval
}.

Definition Guide_params : list string :=
  ["orientation"; "pos"; "color"; "thickness"; "style_name"].

(** The call of [Guide] with the entries of [item] as keyword arguments:
    [TypeError] when [item] is not a mapping, when it has a
    key that is no parameter of [__init__], or when [orientation] or [pos] is
    missing. *)
Definition Guide_kwargs (item : pyval) : result GuideObj :=
  match item with
  | PDict m =>
      if bool_decide (map_Forall (fun k _ => k ∈ Guide_params) m) then
        match m !! "orientation", m !! "pos" with
        | Some o, Some p =>
            Ok (mkGuideObj o p
                  (default (PTuple [PInt 255; PInt 140; PInt 0; PInt 255]) (m !! "color"))
                  (default (PInt 2) (m !! "thickness"))
                  (default (PStr "Solid") (m !! "style_name")))
        | _, _ => Raise TypeError
        end
      else Raise TypeError
  | _ => Raise TypeError
  end.

(** The loop over [guides_data] in [_load_settings], for [guides_data] a
    JSON array: each item is passed to [Guide] inside [try], the guide built
    is appended to [guides], and [except Exception: pass] drops the item
    otherwise.  [guides] is the list built so far. *)
Fixpoint load_guides_loop (guides_data : list pyval) (guides : list GuideObj)
  : result (list GuideObj) :=
  match guides_data with
  | [] => Ok guides
  | item :: rest =>
      guides ← try_except (g ← Guide_kwargs item; Ok (guides ++ [g])) (Ok guides);
      load_guides_loop rest guides
  end.

(** [guides = []] followed by the loop; the result is the list that
    [_load_settings] hands to [canvas.setGuides]. *)
Definition load_guides (guides_data : list pyval) : result (list GuideObj) :=
  load_guides_loop guides_data [].

(** ** Sequences of operations on the canvas *)

Inductive op : Type :=
  | SetInteractive (enabled : bool)
  | AddGuide (guide : Guide)
  | RemoveGuideAt (index : Z)
  | ClearGuides
  | SetGuides (gs : list Guide)
  | MousePress (e : QMouseEvent)
  | MouseMove (width height : Z) (e : QMouseEvent)
  | MouseRelease (e : QMouseEvent)
  | Leave.

Definition step (o : op) (c : OverlayCanvas) : result OverlayCanvas :=
  match o with
  | SetInteractive enabled => Ok (setInteractive enabled c)
  | AddGuide guide => Ok (addGuide guide c)
  | RemoveGuideAt index => removeGuideAt index c
  | ClearGuides => Ok (clearGuides c)
  | SetGuides gs => Ok (setGuides gs c)
  | MousePress e => mousePressEvent e c
  | MouseMove width height e => mouseMoveEvent width height e c
  | MouseRelease e => Ok (mouseReleaseEvent e c)
  | Leave => Ok (leaveEvent c)
  end.

Fixpoint run (ops : list op) (c : OverlayCanvas) : result OverlayCanvas :=
  match ops with
  | [] => Ok c
  | o :: ops' => c' ← step o c; run ops' c'
  end.

(** ** Properties the statements below are phrased with *)

(** The radius test of the hit test, in the words of the design: the
    perpendicular distance of the pointer to the guide is at most [radius]. *)
Definition hit (radius : Z) (p : Z * Z) (g : Guide) : Prop :=
  (orientation g = "v" /\ Z.abs (p.1 - pos g) <= radius) \/
  (orientation g = "h" /\ Z.abs (p.2 - pos g) <= radius).




(** An interaction index that is [None] or a position of the collection. *)
Definition idx_valid (gs : list Guide) (o : option Z) : Prop :=
  match o with
  | None => True
  | Some i => 0 <= i < PyList.len gs
  end.

Definition no_dangling (c : OverlayCanvas) : Prop :=
  idx_valid (_guides c) (_hover_idx c) /\ idx_valid (_guides c) (_positioning_idx c).

Definition passive_clear (c : OverlayCanvas) : Prop :=
  _interactive c = false -> _hover_idx c = None /\ _positioning_idx c = None.

Definition drag_highlighted (c : OverlayCanvas) : Prop :=
  forall i, _positioning_idx c = Some i -> _hover_idx c = Some i.

(** An entry of the persisted guide list is malformed when building a
    [Guide] from it raises. *)
Definition malformed (item : pyval) : Prop :=
  forall g, Guide_kwargs item <> Ok g.






(** ** Painting *)

(** [l[i]] *)
Definition getitem {A : Type} (l : list A) (i : Z) : result A :=
  k ← PyList.resolve l i;
  match l !! k with
  | Some a => Ok a
  | None => Raise IndexError
  end.

Inductive PenStyle : Type :=
  | SolidLine
  | DashLine
  | DotLine
  | DashDotLine
  | DashDotDotLine.

(** The dict literal [STYLE_MAP], in the order it is written. *)
Definition STYLE_MAP_items : list (string * PenStyle) :=
  [("Solid", SolidLine); ("Dashed", DashLine); ("Dotted", DotLine);
   ("Dash-Dot", DashDotLine); ("Dash-Dot-Dot", DashDotDotLine)].

Definition STYLE_MAP : gmap string PenStyle := list_to_map STYLE_MAP_items.

Definition STYLE_NAMES : list string := STYLE_MAP_items.*1.

(** What painting can raise: [OverflowError] when an integer handed to a Qt
    call does not fit a C [int], and whatever a list subscript raises. *)
Inductive paint_exn : Type :=
  | OverflowError
  | Subscript (e : exn).

#[global] Instance paint_ret : MRet (sum paint_exn) := fun A a => inr a.

#[global] Instance paint_bind : MBind (sum paint_exn) := fun A B k r =>
  match r with
  | inr a => k a
  | inl e => inl e
  end.

(** A Python int passed for an [int] parameter of a Qt call. *)
Definition c_int (z : Z) : paint_exn + Z :=
  if bool_decide (- 2 ^ 31 <= z < 2 ^ 31) then inr z else inl OverflowError.

(** The calls that set up a pen, by their arguments: [QColor(r, g, b, a)],
    [setWidth], [setStyle], [setCosmetic].  This is what the code asks of
    Qt; the state Qt keeps for a negative width or for a channel outside
    0..255 is not modelled. *)
Record PenCalls : Type := mkPen {
  QColor_args : Color;
  setWidth_arg : Z;
  setStyle_arg : PenStyle;
  setCosmetic_arg : bool
}.

(** [Guide.to_pen] *)
Definition to_pen (g : Guide) : paint_exn + PenCalls :=
  let '(r, gr, b, al) := color g in
  r ← c_int r; gr ← c_int gr; b ← c_int b; al ← c_int al;
  w ← c_int (thickness g);
  inr (mkPen (r, gr, b, al) w (default SolidLine (STYLE_MAP !! style_name g)) true).

(** The arguments [x1, y1, x2, y2] of [painter.drawLine] for a guide. *)
Definition guide_line (width height : Z) (g : Guide) : Z * Z * Z * Z :=
  if bool_decide (orientation g = "v") then (pos g, 0, pos g, height)
  else (0, pos g, width, pos g).

(** [painter.drawLine(x1, y1, x2, y2)] *)
Definition drawLine (l : Z * Z * Z * Z) : paint_exn + Z * Z * Z * Z :=
  let '(x1, y1, x2, y2) := l in
  x1 ← c_int x1; y1 ← c_int y1; x2 ← c_int x2; y2 ← c_int y2;
  inr (x1, y1, x2, y2).

(** The index [paintEvent] picks for the highlight. *)
Definition highlight_idx (c : OverlayCanvas) : option Z :=
  if _interactive c then
    match _positioning_idx c with
    | Some p => Some p
    | None =>
        match _hover_idx c with
        | Some h => Some h
        | None => None
        end
    end
  else None.

(** The loop of [paintEvent] over the guides: [setPen(g.to_pen())], then
    [drawLine]. *)
Fixpoint paint_guides (width height : Z) (gs : list Guide)
  : paint_exn + list (PenCalls * (Z * Z * Z * Z)) :=
  match gs with
  | [] => inr []
  | g :: gs' =>
      pen ← to_pen g;
      l ← drawLine (guide_line width height g);
      rest ← paint_guides width height gs';
      inr ((pen, l) :: rest)
  end.

(** [paintEvent]: the lines drawn, each with the calls that made the pen it
    is drawn with, in drawing order. *)
Definition paintEvent (width height : Z) (c : OverlayCanvas)
  : paint_exn + list (PenCalls * (Z * Z * Z * Z)) :=
  strokes ← paint_guides width height (_guides c);
  match highlight_idx c with
  | Some hi =>
      if bool_decide (0 <= hi < PyList.len (_guides c)) then
        match getitem (_guides c) hi with
        | Raise e => inl (Subscript e)
        | Ok g =>
            let '(highlight_color, highlight_width) :=
              if bool_decide (_positioning_idx c = Some hi)
              then ((255, 255, 0, 200), Z.max 6 (thickness g + 6))
              else ((255, 255, 0, 120), Z.max 4 (thickness g + 4)) in
            w ← c_int highlight_width;
            l ← drawLine (guide_line width height g);
            inr (strokes ++ [(mkPen highlight_color w SolidLine true, l)])
        end
      else inr strokes
  | None => inr strokes
  end.

(** An integer that fits a C [int]. *)
Definition fits (z : Z) : Prop := - 2 ^ 31 <= z < 2 ^ 31.

(** A guide whose pen can be made: its color channels and its thickness fit
    a C [int]. *)
Definition pen_fits (g : Guide) : Prop :=
  let '(r, gr, b, al) := color g in
  fits r /\ fits gr /\ fits b /\ fits al /\ fits (thickness g).

(** A guide all of whose numbers fit a C [int]. *)
Definition drawable (g : Guide) : Prop := pen_fits g /\ fits (pos g).

(** ** MainWindow: settings mode, visibility and click-through *)

Definition WS_EX_LAYERED : Z := 0x00080000.
Definition WS_EX_TRANSPARENT : Z := 0x00000020.

(** [MainWindow] with the attributes and the widget state that the mode
    switches read and write: [panel_shown] is the panel's visibility
    ([show]/[hide]), [tray_settings_text] and [tray_guides_text] the texts of
    the first two tray actions, [window_visible] what [setVisible] was last
    given, and [ex_style] the extended style of the native window, read by
    [GetWindowLongW] and written by [SetWindowLongW]. *)
Record AppWindow : Type := mkApp {
  window : MainWindow;
  _settings_mode : bool;
  _guides_visible : bool;
  panel_shown : bool;
  tray_settings_text : string;
  tray_guides_text : string;
  window_visible : bool;
  ex_style : Z
}.

Definition _apply_clickthrough (a : AppWindow) : AppWindow :=
  let style := ex_style a in
  let style' :=
    if negb (_settings_mode a)
    then Z.lor (Z.lor style WS_EX_LAYERED) WS_EX_TRANSPARENT
    else Z.land style (Z.lnot WS_EX_TRANSPARENT) in
  mkApp (window a) (_settings_mode a) (_guides_visible a) (panel_shown a)
    (tray_settings_text a) (tray_guides_text a) (window_visible a) style'.

Definition _apply_modes (a : AppWindow) : AppWindow :=
  let shown := if _settings_mode a then true else false in
  let text0 := if _settings_mode a then "Close Settings" else "Open Settings" in
  let w := window a in
  let w := mkWindow (setInteractive (_settings_mode a) (canvas w)) (panel w)
             (_default_color w) (_default_thickness w) (_default_style w) in
  let text1 := if negb (_guides_visible a) then "Show Guides" else "Hide Guides" in
  mkApp w (_settings_mode a) (_guides_visible a) shown text0 text1
    (_guides_visible a) (ex_style a).

Definition toggleSettingsMode (a : AppWindow) : AppWindow :=
  let a := mkApp (window a) (negb (_settings_mode a)) (_guides_visible a) (panel_shown a)
             (tray_settings_text a) (tray_guides_text a) (window_visible a) (ex_style a) in
  let a := _apply_modes a in
  _apply_clickthrough a.

Definition toggleGuidesVisibility (a : AppWindow) : AppWindow :=
  let a := mkApp (window a) (_settings_mode a) (negb (_guides_visible a)) (panel_shown a)
             (tray_settings_text a) (tray_guides_text a) (window_visible a) (ex_style a) in
  _apply_modes a.

(** ** Saving, and loading from the whole settings value *)

(** [asdict(g)] after [json.dump] wrote it and [json.load] read it back: one
    key per field; JSON has arrays only, so the color tuple comes back as a
    list. *)
Definition saved_entry (g : Guide) : pyval :=
  let '(r, gr, b, al) := color g in
  PDict (list_to_map
    [("orientation", PStr (orientation g)); ("pos", PInt (pos g));
     ("color", PList [PInt r; PInt gr; PInt b; PInt al]);
     ("thickness", PInt (thickness g)); ("style_name", PStr (style_name g))]).

(** The value under ["guides"] that [_save_settings] writes for a canvas, as
    it is read back. *)
Definition saved_guides (c : OverlayCanvas) : pyval :=
  PList (saved_entry <$> guides c).

(** The exceptions that leave [_load_settings]: nothing catches them. *)
Inductive uncaught : Type :=
  | AttributeError_get
  | TypeError_not_iterable
  | FromLoop (e : exn).

(** What [for item in v] iterates over: the items of a list or tuple, the
    characters of a string, the keys of a dict (each key is a [str]; [gmap]
    does not record their order); [None] when [v] is not iterable. *)
Definition py_iter (v : pyval) : option (list pyval) :=
  match v with
  | PList l | PTuple l => Some l
  | PStr s => Some ((fun a => PStr (String a EmptyString)) <$> String.list_ascii_of_string s)
  | PDict m => Some ((fun kv => PStr kv.1) <$> map_to_list m)
  | PNone | PBool _ | PInt _ | PFloat _ _ => None
  end.

(** The guides part of [_load_settings], from the value [data] that
    [json.load] returned: [data.get("guides", [])], then the loop, whose
    result goes to [canvas.setGuides]. *)
Definition load_settings_guides (data : pyval) : uncaught + list GuideObj :=
  match data with
  | PDict m =>
      let guides_data := default (PList []) (m !! "guides") in
      match py_iter guides_data with
      | Some items =>
          match load_guides items with
          | Ok guides => inr guides
          | Raise e => inl (FromLoop e)
          end
      | None => inl TypeError_not_iterable
      end
  | _ => inl AttributeError_get
  end.

(** The guide object that loading builds from [saved_entry g]: the field
    values of [g], the color as a list. *)
Definition reloaded (g : Guide) : GuideObj :=
  let '(r, gr, b, al) := color g in
  mkGuideObj (PStr (orientation g)) (PInt (pos g))
    (PList [PInt r; PInt gr; PInt b; PInt al])
    (PInt (thickness g)) (PStr (style_name g)).

(** * Proofs *)

(** ** Python list subscripts *)

Section pylist_facts.
Context {A : Type}.
Implicit Types (l : list A) (i : Z).

Lemma resolve_in_range l i :
  0 <= i < PyList.len l -> PyList.resolve l i = Ok (Z.to_nat i).
Proof.
  intros Hi. unfold PyList.resolve. by rewrite bool_decide_eq_true_2.
Qed.


Lemma delitem_in_range l i :
  0 <= i < PyList.len l -> PyList.delitem l i = Ok (delete (Z.to_nat i) l).
Proof. intros Hi. unfold PyList.delitem. by rewrite resolve_in_range. Qed.

Lemma len_delete l i :
  0 <= i < PyList.len l -> PyList.len (delete (Z.to_nat i) l) = PyList.len l - 1.
Proof.
  unfold PyList.len. intros Hi.
  rewrite length_delete; [lia |].
  apply lookup_lt_is_Some_2. lia.
Qed.

Lemma mutate_at_in_range l i (f : A -> A) :
  0 <= i < PyList.len l ->
  exists g, l !! Z.to_nat i = Some g /\
            PyList.mutate_at l i f = Ok (<[Z.to_nat i := f g]> l).
Proof.
  intros Hi. unfold PyList.mutate_at. rewrite resolve_in_range by done. simpl.
  destruct (lookup_lt_is_Some_2 l (Z.to_nat i)) as [g Hg].
  { unfold PyList.len in Hi. lia. }
  exists g. by rewrite Hg.
Qed.

Lemma len_insert l (k : nat) (a : A) : PyList.len (<[k := a]> l) = PyList.len l.
Proof. unfold PyList.len. by rewrite length_insert. Qed.

Lemma len_app_one l (a : A) : PyList.len (l ++ [a]) = PyList.len l + 1.
Proof. unfold PyList.len. rewrite length_app. simpl. lia. Qed.

End pylist_facts.

(** ** Hit testing *)

Lemma loop_head_test radius p g :
  (bool_decide (orientation g = "v") && bool_decide (Z.abs (p.1 - pos g) <= radius)
   || bool_decide (orientation g = "h") && bool_decide (Z.abs (p.2 - pos g) <= radius))
  = true <-> hit radius p g.
Proof.
  unfold hit. rewrite orb_true_iff, !andb_true_iff, !bool_decide_eq_true. tauto.
Qed.

Lemma loop_cons radius p i g gs :
  findGuideAt_loop radius p i (g :: gs) =
  if bool_decide (hit radius p g) then Some i
  else findGuideAt_loop radius p (i + 1) gs.
Proof.
  destruct (decide (hit radius p g)) as [Hh | Hh];
    [rewrite bool_decide_eq_true_2 by done | rewrite bool_decide_eq_false_2 by done];
    simpl.
  - apply loop_head_test in Hh.
    destruct (bool_decide (orientation g = "v") &&
              bool_decide (Z.abs (p.1 - pos g) <= radius)); [done |].
    simpl in Hh. by rewrite Hh.
  - destruct (bool_decide (orientation g = "v") &&
              bool_decide (Z.abs (p.1 - pos g) <= radius)) eqn:Ev.
    { exfalso. apply Hh, loop_head_test. by rewrite Ev. }
    destruct (bool_decide (orientation g = "h") &&
              bool_decide (Z.abs (p.2 - pos g) <= radius)) eqn:Eh; [| done].
    exfalso. apply Hh, loop_head_test. by rewrite Ev, Eh.
Qed.

(** The loop started with counter [i0] answers [i0 + k] for the first
    position [k] whose guide passes the radius test. *)
Lemma loop_some radius p gs : forall i0 i,
  findGuideAt_loop radius p i0 gs = Some i <->
  exists k g, i = i0 + Z.of_nat k /\ gs !! k = Some g /\ hit radius p g /\
              forall j g', (j < k)%nat -> gs !! j = Some g' -> ~ hit radius p g'.
Proof.
  induction gs as [| g0 gs IH]; intros i0 i.
  - simpl. split; [done |]. by intros (k & g & _ & Hk & _).
  - rewrite loop_cons. case_bool_decide as Hh.
    + split.
      * intros [= <-]. exists 0%nat, g0. repeat split; [lia | done | lia].
      * intros (k & g & -> & Hk & Hg & Hfirst). destruct k as [| k]; [f_equal; lia |].
        exfalso. apply (Hfirst 0%nat g0); [lia | done | done].
    + rewrite IH. split.
      * intros (k & g & -> & Hk & Hg & Hfirst). exists (S k), g.
        repeat split; [lia | done | done |].
        intros [| j] g' Hj Hl; simpl in Hl.
        -- by injection Hl as <-.
        -- apply (Hfirst j); [lia | done].
      * intros (k & g & -> & Hk & Hg & Hfirst). destruct k as [| k].
        -- simpl in Hk. injection Hk as <-. done.
        -- exists k, g. repeat split; [lia | done | done |].
           intros j g' Hj Hl. apply (Hfirst (S j)); [lia | done].
Qed.

Lemma loop_none radius p gs : forall i0,
  findGuideAt_loop radius p i0 gs = None <->
  forall k g, gs !! k = Some g -> ~ hit radius p g.
Proof.
  induction gs as [| g0 gs IH]; intros i0.
  - simpl. split; [| done]. intros _ k g Hk. by rewrite lookup_nil in Hk.
  - rewrite loop_cons. case_bool_decide as Hh.
    + split; [done |]. intros Hall. exfalso. by apply (Hall 0%nat g0).
    + rewrite IH. split.
      * intros Hall [| k] g Hk; simpl in Hk.
        -- by injection Hk as <-.
        -- by apply (Hall k).
      * intros Hall k g Hk. by apply (Hall (S k)).
Qed.

(** What the hit test answers is a position of the collection. *)
Lemma findGuideAt_in_range c p b i :
  _findGuideAt c p b = Some i -> 0 <= i < PyList.len (_guides c).
Proof.
  unfold _findGuideAt. intros (k & g & -> & Hk & _)%loop_some.
  apply lookup_lt_Some in Hk. unfold PyList.len. lia.
Qed.

(** C7.  For every pointer, guide list and radius the hit test answers the
    lowest position whose guide is within [radius] of the pointer on its
    perpendicular axis (x for a vertical guide, y for a horizontal one), and
    [None] exactly when no guide is; the method [_findGuideAt] runs this
    test with one of the two module radii.  The bound is inclusive: a guide
    at distance exactly [radius] is hit, one at distance [radius + 1] is
    not, and when several guides pass the first one in collection order is
    answered. *)
Theorem findGuideAt_first_hit (radius : Z) (p : Z * Z) (gs : list Guide) :
  (forall i, findGuideAt_loop radius p 0 gs = Some i <->
     exists k g, i = Z.of_nat k /\ gs !! k = Some g /\ hit radius p g /\
       forall j g', (j < k)%nat -> gs !! j = Some g' -> ~ hit radius p g') /\
  (findGuideAt_loop radius p 0 gs = None <->
     forall k g, gs !! k = Some g -> ~ hit radius p g) /\
  (forall (c : OverlayCanvas) (b : bool), _guides c = gs ->
     radius = (if b then GUIDE_DRAG_RADIUS else GUIDE_HIT_RADIUS) ->
     _findGuideAt c p b = findGuideAt_loop radius p 0 gs) /\
  (forall o q rest, o = "v" \/ o = "h" ->
     Z.abs ((if bool_decide (o = "v") then p.1 else p.2) - q) = radius ->
     forall col th st, findGuideAt_loop radius p 0 (mkGuide o q col th st :: rest) = Some 0) /\
  (forall o q, o = "v" \/ o = "h" ->
     Z.abs ((if bool_decide (o = "v") then p.1 else p.2) - q) = radius + 1 ->
     forall col th st, findGuideAt_loop radius p 0 [mkGuide o q col th st] = None).
Proof.
  split; [| split; [| split; [| split]]].
  - intros i. rewrite loop_some. by setoid_rewrite Z.add_0_l.
  - apply loop_none.
  - intros c b <- ->. reflexivity.
  - intros o q rest Ho Hd col th st. rewrite loop_cons, bool_decide_eq_true_2; [done |].
    unfold hit; simpl. destruct Ho as [-> | ->]; simpl in Hd; [left | right]; (split; [done | lia]).
  - intros o q Ho Hd col th st. rewrite loop_cons, bool_decide_eq_false_2; [done |].
    unfold hit; simpl. destruct Ho as [-> | ->]; simpl in Hd;
      intros [[Ho' Hle] | [Ho' Hle]]; try discriminate; lia.
Qed.

Lemma findGuideAt_first_hit_witness :
  findGuideAt_loop 20 (120, 7) 0 [Guide2 "v" 100; Guide2 "v" 110] = Some 0 /\
  findGuideAt_loop 20 (7, 121) 0 [Guide2 "h" 100] = None.
Proof.
  split.
  - apply (proj1 (proj2 (proj2 (proj2 (findGuideAt_first_hit 20 (120, 7) []))))
             "v" 100 [Guide2 "v" 110]); [by left | reflexivity].
  - apply (proj2 (proj2 (proj2 (proj2 (findGuideAt_first_hit 20 (7, 121) []))))
             "h" 100); [by right | reflexivity].
Defined.

(** ** The click protocol *)

(** C1.  Click to toggle.  In interactive mode with no drag in progress, a
    left press that hits guide [i] under the drag radius sets both
    [_positioning_idx] and [_hover_idx] to [i]; with a drag in progress any
    left press sets both to [None]; a left press with no drag in progress
    and no hit leaves the guides, both indices and the mode as they were;
    none of the three touches the guides; and a button release returns the
    canvas unchanged. *)
Theorem click_to_toggle (e : QMouseEvent) (c : OverlayCanvas) :
  (_interactive c = true -> button e = LeftButton ->
     (forall i, _positioning_idx c = None ->
        _findGuideAt c (ev_pos e) true = Some i ->
        exists c', mousePressEvent e c = Ok c' /\
          _positioning_idx c' = Some i /\ _hover_idx c' = Some i /\
          _guides c' = _guides c /\ _interactive c' = true) /\
     (forall j, _positioning_idx c = Some j ->
        exists c', mousePressEvent e c = Ok c' /\
          _positioning_idx c' = None /\ _hover_idx c' = None /\
          _guides c' = _guides c /\ _interactive c' = true) /\
     (_positioning_idx c = None ->
        _findGuideAt c (ev_pos e) true = None ->
        exists c', mousePressEvent e c = Ok c' /\
          _positioning_idx c' = None /\ _hover_idx c' = _hover_idx c /\
          _guides c' = _guides c /\ _interactive c' = true)) /\
  mouseReleaseEvent e c = c.
Proof.
  split; [| reflexivity].
  intros Hint Hb. unfold mousePressEvent, _findGuideAt. rewrite Hint, Hb. simpl.
  repeat split.
  - intros i Hp Hf. rewrite Hp, Hf. simpl. eexists. split; [reflexivity |]. done.
  - intros j Hp. rewrite Hp. simpl. eexists. split; [reflexivity |]. done.
  - intros Hp Hf. rewrite Hp, Hf. simpl. eexists. split; [reflexivity |]. done.
Qed.

Lemma click_to_toggle_witness :
  exists c1 c2,
    mousePressEvent (mkEvent LeftButton 0 105 40)
      (mkCanvas [Guide2 "v" 100] None None true None) = Ok c1 /\
    _positioning_idx c1 = Some 0 /\ _hover_idx c1 = Some 0 /\
    mousePressEvent (mkEvent LeftButton 0 900 40) c1 = Ok c2 /\
    _positioning_idx c2 = None /\ _hover_idx c2 = None /\
    _guides c2 = [Guide2 "v" 100].
Proof.
  destruct (proj1 (proj1 (click_to_toggle (mkEvent LeftButton 0 105 40)
              (mkCanvas [Guide2 "v" 100] None None true None))
              eq_refl eq_refl) 0 eq_refl eq_refl)
    as (c1 & H1 & Hp1 & Hh1 & Hg1 & Hi1).
  destruct (proj1 (proj2 (proj1 (click_to_toggle (mkEvent LeftButton 0 900 40) c1)
              Hi1 eq_refl)) 0 Hp1)
    as (c2 & H2 & Hp2 & Hh2 & Hg2 & _).
  exists c1, c2. repeat split; try done. by rewrite Hg2, Hg1.
Defined.

(** ** Removal *)

(** C2 as it is written does not hold: an index outside the collection does
    not make [removeGuideAt] raise; here index 5 on a one-guide canvas
    returns normally. *)
Lemma removeGuideAt_invalid_no_error :
  let c := mkCanvas [Guide2 "v" 100] (Some 0) (Some 0) true None in
  PyList.len (_guides c) <= 5 /\
  removeGuideAt 5 c = Ok c /\
  ~ (exists e, removeGuideAt 5 c = Raise e).
Proof.
  simpl. split; [unfold PyList.len; simpl; lia |].
  split; [reflexivity |]. intros [e He]. vm_compute in He. discriminate.
Qed.

(** C2, amended.  For every invalid index (negative, or at least the
    collection length) [removeGuideAt] returns normally and leaves the
    canvas as it was: the range test at its top guards the [del], so no
    [IndexError] is raised, nothing is removed and neither index moves. *)
Theorem removeGuideAt_invalid_noop (index : Z) (c : OverlayCanvas) :
  index < 0 \/ PyList.len (_guides c) <= index ->
  removeGuideAt index c = Ok c.
Proof.
  intros Hinv. unfold removeGuideAt. rewrite bool_decide_eq_false_2; [done | lia].
Qed.

Lemma removeGuideAt_invalid_noop_witness :
  removeGuideAt (-1) (mkCanvas [Guide2 "v" 100; Guide2 "h" 7] (Some 1) (Some 1) true None)
  = Ok (mkCanvas [Guide2 "v" 100; Guide2 "h" 7] (Some 1) (Some 1) true None).
Proof. apply removeGuideAt_invalid_noop. left. lia. Defined.

(** The shape of a successful removal, shared by the statements below. *)
Lemma removeGuideAt_valid index c :
  0 <= index < PyList.len (_guides c) ->
  exists c', removeGuideAt index c = Ok c' /\
    _guides c' = delete (Z.to_nat index) (_guides c) /\
    _interactive c' = _interactive c /\
    _positioning_idx c' =
      match _positioning_idx c with
      | Some p => if bool_decide (p = index) then None
                  else if bool_decide (p > index) then Some (p - 1) else Some p
      | None => None
      end /\
    _hover_idx c' =
      match _hover_idx c with
      | Some h => if bool_decide (h = index) then None
                  else if bool_decide (h > index) then Some (h - 1) else Some h
      | None => None
      end.
Proof.
  intros Hi. unfold removeGuideAt.
  rewrite bool_decide_eq_true_2 by done. rewrite delitem_in_range by done. simpl.
  eexists. split; [reflexivity |].
  destruct c as [gs [h |] [p |] b lm]; cbn;
    try (destruct (bool_decide (p = index)); [| destruct (bool_decide (p > index))]); cbn;
    try (destruct (bool_decide (h = index)); [| destruct (bool_decide (h > index))]); cbn;
    done.
Qed.

(** C3.  For every valid index [i], [removeGuideAt i] removes the guide at
    [i] and re-derives both indices: [_positioning_idx] equal to [i] becomes
    [None], greater than [i] it is decremented by 1, otherwise it is
    unchanged; the same rule is applied to [_hover_idx], independently of
    what happened to [_positioning_idx]. *)
Theorem removeGuideAt_rederives (i : Z) (c : OverlayCanvas) :
  0 <= i < PyList.len (_guides c) ->
  exists c', removeGuideAt i c = Ok c' /\
    _guides c' = delete (Z.to_nat i) (_guides c) /\
    (_positioning_idx c = Some i -> _positioning_idx c' = None) /\
    (forall p, _positioning_idx c = Some p -> p > i -> _positioning_idx c' = Some (p - 1)) /\
    (forall p, _positioning_idx c = Some p -> p < i -> _positioning_idx c' = Some p) /\
    (_positioning_idx c = None -> _positioning_idx c' = None) /\
    (_hover_idx c = Some i -> _hover_idx c' = None) /\
    (forall h, _hover_idx c = Some h -> h > i -> _hover_idx c' = Some (h - 1)) /\
    (forall h, _hover_idx c = Some h -> h < i -> _hover_idx c' = Some h) /\
    (_hover_idx c = None -> _hover_idx c' = None).
Proof.
  intros Hi. destruct (removeGuideAt_valid i c Hi) as (c' & Hr & Hg & _ & Hp & Hh).
  exists c'. split; [done |]. split; [done |].
  rewrite Hp, Hh. repeat split.
  - intros ->. by rewrite bool_decide_eq_true_2.
  - intros p -> Hgt. rewrite bool_decide_eq_false_2 by lia.
    by rewrite bool_decide_eq_true_2.
  - intros p -> Hlt. by rewrite !bool_decide_eq_false_2 by lia.
  - by intros ->.
  - intros ->. by rewrite bool_decide_eq_true_2.
  - intros h -> Hgt. rewrite bool_decide_eq_false_2 by lia.
    by rewrite bool_decide_eq_true_2.
  - intros h -> Hlt. by rewrite !bool_decide_eq_false_2 by lia.
  - by intros ->.
Qed.

Lemma removeGuideAt_rederives_witness :
  exists c',
    removeGuideAt 1
      (mkCanvas [Guide2 "v" 10; Guide2 "h" 20; Guide2 "v" 30] (Some 2) (Some 1) true None)
      = Ok c' /\
    _guides c' = [Guide2 "v" 10; Guide2 "v" 30] /\
    _positioning_idx c' = None /\ _hover_idx c' = Some 1.
Proof.
  destruct (removeGuideAt_rederives 1
    (mkCanvas [Guide2 "v" 10; Guide2 "h" 20; Guide2 "v" 30] (Some 2) (Some 1) true None))
    as (c' & Hr & Hg & Hp & _ & _ & _ & _ & Hh & _).
  { unfold PyList.len; simpl; lia. }
  exists c'. split; [exact Hr |]. split; [rewrite Hg; reflexivity |].
  split; [apply Hp; reflexivity | apply (Hh 2); [reflexivity | lia]].
Defined.

(** ** Dragging *)




(** ** Invariants of the interaction indices *)

Lemma idx_valid_delete gs index o :
  0 <= index < PyList.len gs ->
  idx_valid gs o ->
  idx_valid (delete (Z.to_nat index) gs)
    match o with
    | Some p => if bool_decide (p = index) then None
                else if bool_decide (p > index) then Some (p - 1) else Some p
    | None => None
    end.
Proof.
  intros Hi Ho. destruct o as [p |]; [| done]. simpl in Ho.
  repeat case_bool_decide; simpl; rewrite ?len_delete by done; try done; lia.
Qed.

Lemma removeGuideAt_no_dangling index c :
  no_dangling c -> exists c', removeGuideAt index c = Ok c' /\ no_dangling c'.
Proof.
  intros [Hh Hp].
  destruct (decide (0 <= index < PyList.len (_guides c))) as [Hi | Hi].
  - destruct (removeGuideAt_valid index c Hi) as (c' & Hr & Hg & _ & Hp' & Hh').
    exists c'. split; [done |]. unfold no_dangling. rewrite Hg, Hp', Hh'.
    split; by apply idx_valid_delete.
  - exists c. split; [| done]. apply removeGuideAt_invalid_noop. lia.
Qed.

Lemma idx_valid_app_one gs g o : idx_valid gs o -> idx_valid (gs ++ [g]) o.
Proof. destruct o; simpl; [| done]. rewrite len_app_one. lia. Qed.

Lemma mousePressEvent_no_dangling e c :
  no_dangling c -> exists c', mousePressEvent e c = Ok c' /\ no_dangling c'.
Proof.
  intros Hinv. pose proof Hinv as [Hh Hp]. unfold mousePressEvent.
  destruct (_interactive c); simpl; [| by exists c].
  destruct (button e).
  - destruct (_findGuideAt _ (ev_pos e) true) as [i |] eqn:Hf.
    + apply findGuideAt_in_range in Hf. simpl in Hf.
      destruct (_positioning_idx c) as [p |] eqn:Hpc; simpl;
        (eexists; split; [reflexivity |]); split; simpl; rewrite ?Hpc; done.
    + destruct (_positioning_idx c) as [p |] eqn:Hpc; simpl;
        (eexists; split; [reflexivity |]); split; simpl; rewrite ?Hpc; done.
  - destruct (_findGuideAt _ (ev_pos e) true) as [i |] eqn:Hf.
    + apply removeGuideAt_no_dangling. case_bool_decide; split; simpl; done.
    + eexists; split; [reflexivity |]. split; simpl; done.
  - case_bool_decide; (eexists; split; [reflexivity |]);
      split; simpl; by apply idx_valid_app_one.
  - eexists; split; [reflexivity |]. split; simpl; done.
Qed.

Lemma mouseMoveEvent_no_dangling width height e c :
  no_dangling c -> exists c', mouseMoveEvent width height e c = Ok c' /\ no_dangling c'.
Proof.
  intros Hinv. pose proof Hinv as [Hh Hp]. unfold mouseMoveEvent.
  destruct (_interactive c); simpl; [| by exists c].
  destruct (_positioning_idx c) as [p |] eqn:Hpc; simpl in *.
  - rewrite bool_decide_eq_true_2 by lia.
    destruct (mutate_at_in_range (_guides c) p
                (fun g0 => if bool_decide (orientation g0 = "v")
                           then set_pos (Z.max 0 (Z.min (width - 1) (ev_x e))) g0
                           else set_pos (Z.max 0 (Z.min (height - 1) (ev_y e))) g0) Hp)
      as (g & Hg & ->).
    simpl. eexists; split; [reflexivity |].
    split; simpl; rewrite ?Hpc.
    + destruct (_hover_idx c); simpl in *; [| done]. by rewrite len_insert.
    + simpl. by rewrite len_insert.
  - destruct (_findGuideAt _ (ev_pos e) false) as [i |] eqn:Hf.
    + apply findGuideAt_in_range in Hf. simpl in Hf.
      case_bool_decide; (eexists; split; [reflexivity |]); split; simpl;
        rewrite ?Hpc; done.
    + case_bool_decide; (eexists; split; [reflexivity |]); split; simpl;
        rewrite ?Hpc; done.
Qed.

(** Every operation returns normally from a state without dangling index
    and leads to such a state. *)
Lemma step_no_dangling o c :
  no_dangling c -> exists c', step o c = Ok c' /\ no_dangling c'.
Proof.
  intros Hinv. pose proof Hinv as [Hh Hp]. destruct o; simpl.
  - eexists; split; [reflexivity |]. unfold setInteractive.
    destruct enabled; split; simpl; done.
  - eexists; split; [reflexivity |]. split; simpl; by apply idx_valid_app_one.
  - by apply removeGuideAt_no_dangling.
  - eexists; split; [reflexivity |]. unfold clearGuides.
    destruct (_guides c) eqn:Hg; [by rewrite <- Hg in * | split; simpl; done].
  - eexists; split; [reflexivity |]. split; simpl; done.
  - by apply mousePressEvent_no_dangling.
  - by apply mouseMoveEvent_no_dangling.
  - by exists c.
  - eexists; split; [reflexivity |]. unfold leaveEvent.
    destruct (_interactive c); simpl; [| done].
    destruct (bool_decide (_positioning_idx c = None) &&
              bool_decide (_hover_idx c <> None)); [split; simpl |]; done.
Qed.

Lemma run_no_dangling ops : forall c,
  no_dangling c -> exists c', run ops c = Ok c' /\ no_dangling c'.
Proof.
  induction ops as [| o ops IH]; intros c Hinv; simpl.
  - by exists c.
  - destruct (step_no_dangling o c Hinv) as (c1 & -> & Hinv1). simpl. by apply IH.
Qed.

Lemma init_no_dangling : no_dangling init.
Proof. split; simpl; done. Qed.

(** A property kept by every operation is kept by every run. *)
Lemma run_preserves (P : OverlayCanvas -> Prop) :
  (forall o c c', P c -> step o c = Ok c' -> P c') ->
  forall ops c c', P c -> run ops c = Ok c' -> P c'.
Proof.
  intros Hstep. induction ops as [| o ops IH]; intros c c' HP Hrun; simpl in Hrun.
  - by injection Hrun as <-.
  - destruct (step o c) as [c1 | err] eqn:Hs; simpl in Hrun; [| done].
    eapply IH; [| done]. by eapply Hstep.
Qed.

(** C4.  After every sequence of operations (adding, removing, clearing,
    replacing the guides, switching the mode and every pointer event) run
    from the freshly built canvas, the run returns normally and each of
    [_hover_idx] and [_positioning_idx] is [None] or an index [idx] with
    [0 <= idx < len(_guides)]. *)
Theorem no_dangling_index (ops : list op) :
  exists c, run ops init = Ok c /\
    (forall idx, _hover_idx c = Some idx -> 0 <= idx < PyList.len (_guides c)) /\
    (forall idx, _positioning_idx c = Some idx -> 0 <= idx < PyList.len (_guides c)).
Proof.
  destruct (run_no_dangling ops init init_no_dangling) as (c & Hrun & Hh & Hp).
  exists c. split; [done |]. split; intros idx Hidx.
  - by rewrite Hidx in Hh.
  - by rewrite Hidx in Hp.
Qed.

(** Removal applies one and the same renumbering to both indices and keeps
    the mode. *)
Lemma removeGuideAt_indices index c c' :
  removeGuideAt index c = Ok c' ->
  _interactive c' = _interactive c /\
  exists f : option Z -> option Z,
    f None = None /\
    _positioning_idx c' = f (_positioning_idx c) /\
    _hover_idx c' = f (_hover_idx c).
Proof.
  intros Hr.
  destruct (decide (0 <= index < PyList.len (_guides c))) as [Hi | Hi].
  - destruct (removeGuideAt_valid index c Hi) as (c1 & Hr1 & _ & Hint & Hp & Hh).
    rewrite Hr1 in Hr. injection Hr as <-. split; [done |].
    exists (fun o => match o with
                     | Some p => if bool_decide (p = index) then None
                                 else if bool_decide (p > index) then Some (p - 1)
                                 else Some p
                     | None => None
                     end).
    done.
  - rewrite removeGuideAt_invalid_noop in Hr by lia. injection Hr as <-.
    split; [done |]. by exists id.
Qed.

Lemma step_passive_clear o c c' :
  passive_clear c -> step o c = Ok c' -> passive_clear c'.
Proof.
  unfold passive_clear. intros Hinv Hs. destruct o; simpl in Hs.
  - injection Hs as <-. unfold setInteractive. by destruct enabled.
  - by injection Hs as <-.
  - apply removeGuideAt_indices in Hs as (Hint & f & Hf & -> & ->).
    rewrite Hint. intros [-> ->]%Hinv. done.
  - injection Hs as <-. unfold clearGuides. by destruct (_guides c).
  - by injection Hs as <-.
  - unfold mousePressEvent in Hs.
    destruct (_interactive c) eqn:Hint; simpl in Hs; [| injection Hs as <-; auto].
    destruct (button e).
    + repeat case_match; injection Hs as <-; simpl; intros; congruence.
    + destruct (_findGuideAt _ _ _); [| injection Hs as <-; simpl; intros; congruence].
      apply removeGuideAt_indices in Hs as (Hint' & _).
      rewrite Hint'. case_bool_decide; simpl; intros; congruence.
    + case_bool_decide; injection Hs as <-; simpl; intros; congruence.
    + injection Hs as <-; simpl; intros; congruence.
  - unfold mouseMoveEvent in Hs.
    destruct (_interactive c) eqn:Hint; simpl in Hs; [| injection Hs as <-; auto].
    destruct (_positioning_idx c) as [p |].
    + case_bool_decide.
      * destruct (PyList.mutate_at _ _ _); simpl in Hs; [| done].
        injection Hs as <-. simpl. intros; congruence.
      * injection Hs as <-. simpl. intros; congruence.
    + case_bool_decide; injection Hs as <-; simpl; intros; congruence.
  - by injection Hs as <-.
  - injection Hs as <-. unfold leaveEvent.
    destruct (_interactive c) eqn:Hint; simpl; [| auto].
    case_match; simpl; intros; congruence.
Qed.

Lemma step_drag_highlighted o c c' :
  drag_highlighted c -> step o c = Ok c' -> drag_highlighted c'.
Proof.
  unfold drag_highlighted. intros Hinv Hs. destruct o; simpl in Hs.
  - injection Hs as <-. unfold setInteractive. by destruct enabled.
  - by injection Hs as <-.
  - apply removeGuideAt_indices in Hs as (_ & f & Hf & -> & ->).
    intros i Hi. destruct (_positioning_idx c) as [p |]; [| congruence].
    by rewrite (Hinv p eq_refl).
  - injection Hs as <-. unfold clearGuides. by destruct (_guides c).
  - by injection Hs as <-.
  - unfold mousePressEvent in Hs.
    destruct (_interactive c); simpl in Hs; [| by injection Hs as <-].
    destruct (button e).
    + repeat case_match; injection Hs as <-; simpl; done.
    + destruct (_findGuideAt _ _ _) as [k |]; [| by injection Hs as <-].
      apply removeGuideAt_indices in Hs as (_ & f & Hf & -> & ->).
      intros i. case_bool_decide as Hk; simpl; [congruence |].
      destruct (_positioning_idx c) as [p |]; [| congruence].
      by rewrite (Hinv p eq_refl).
    + case_bool_decide; by injection Hs as <-.
    + by injection Hs as <-.
  - unfold mouseMoveEvent in Hs.
    destruct (_interactive c); simpl in Hs; [| by injection Hs as <-].
    destruct (_positioning_idx c) as [p |] eqn:Hp.
    + case_bool_decide.
      * destruct (PyList.mutate_at _ _ _); simpl in Hs; [| done].
        injection Hs as <-. simpl. by rewrite Hp.
      * by injection Hs as <-.
    + case_bool_decide; injection Hs as <-; simpl; congruence.
  - by injection Hs as <-.
  - injection Hs as <-. unfold leaveEvent.
    destruct (_interactive c); simpl; [| done].
    destruct (_positioning_idx c) as [p |] eqn:Hp; simpl; [by rewrite Hp |].
    case_match; simpl; congruence.
Qed.

(** C5.  [setInteractive(False)] leaves both [_hover_idx] and
    [_positioning_idx] at [None] whatever the state before; while the flag
    is false the four pointer handlers return the canvas unchanged; and in
    every state reached from the freshly built canvas, a false flag comes
    with both indices at [None]. *)
Theorem passive_mode_clears :
  (forall c, _interactive (setInteractive false c) = false /\
             _hover_idx (setInteractive false c) = None /\
             _positioning_idx (setInteractive false c) = None) /\
  (forall c e width height, _interactive c = false ->
     mousePressEvent e c = Ok c /\ mouseMoveEvent width height e c = Ok c /\
     mouseReleaseEvent e c = c /\ leaveEvent c = c) /\
  (forall ops, exists c, run ops init = Ok c /\
     (_interactive c = false -> _hover_idx c = None /\ _positioning_idx c = None)).
Proof.
  split; [done |]. split.
  - intros c e width height Hint.
    unfold mousePressEvent, mouseMoveEvent, leaveEvent. by rewrite Hint.
  - intros ops. destruct (run_no_dangling ops init init_no_dangling) as (c & Hrun & _).
    exists c. split; [done |].
    apply (run_preserves passive_clear step_passive_clear ops init c); [| done].
    by intros _.
Qed.

Lemma passive_mode_clears_witness :
  let c := mkCanvas [Guide2 "v" 100] None None false None in
  mousePressEvent (mkEvent LeftButton 0 100 3) c = Ok c /\
  mouseMoveEvent 1920 1080 (mkEvent OtherButton 0 100 3) c = Ok c /\
  mouseReleaseEvent (mkEvent LeftButton 0 100 3) c = c /\ leaveEvent c = c.
Proof.
  apply (proj1 (proj2 passive_mode_clears)
           (mkCanvas [Guide2 "v" 100] None None false None)
           (mkEvent LeftButton 0 100 3) 1920 1080).
  reflexivity.
Defined.

(** C10.  In every state reached from the freshly built canvas, a set
    [_positioning_idx] comes with [_hover_idx] equal to it; and every
    operation that returns (drag start, pointer move, removal of any guide,
    leave, and the others) keeps that equality. *)
Theorem drag_keeps_highlight :
  (forall ops, exists c, run ops init = Ok c /\
     forall i, _positioning_idx c = Some i -> _hover_idx c = Some i) /\
  (forall o c c',
     (forall i, _positioning_idx c = Some i -> _hover_idx c = Some i) ->
     step o c = Ok c' ->
     forall i, _positioning_idx c' = Some i -> _hover_idx c' = Some i).
Proof.
  split.
  - intros ops. destruct (run_no_dangling ops init init_no_dangling) as (c & Hrun & _).
    exists c. split; [done |].
    by apply (run_preserves drag_highlighted step_drag_highlighted ops init c).
  - intros o c c'. apply step_drag_highlighted.
Qed.

Lemma drag_keeps_highlight_witness :
  let c := mkCanvas [Guide2 "v" 10; Guide2 "v" 100] (Some 1) (Some 1) true None in
  let c' := mkCanvas [Guide2 "v" 100] (Some 0) (Some 0) true None in
  step (RemoveGuideAt 0) c = Ok c' /\ _hover_idx c' = Some 0.
Proof.
  simpl. split; [reflexivity |].
  apply (proj2 drag_keeps_highlight (RemoveGuideAt 0)
           (mkCanvas [Guide2 "v" 10; Guide2 "v" 100] (Some 1) (Some 1) true None)
           (mkCanvas [Guide2 "v" 100] (Some 0) (Some 0) true None)).
  - intros i Hi. exact Hi.
  - reflexivity.
  - reflexivity.
Defined.

(** ** Style of the guides added from the canvas *)

(** A middle press in interactive mode appends a guide built by
    [Guide(orientation, pos)]: its color, thickness and style are the
    defaults written in the dataclass, whatever the panel and the window
    hold as defaults. *)
Lemma middle_press_style e w :
  _interactive (canvas w) = true -> button e = MiddleButton ->
  exists w' g,
    canvas_pressed e w = Ok w' /\
    _guides (canvas w') = _guides (canvas w) ++ [g] /\
    color g = (255, 140, 0, 255) /\ thickness g = 2 /\ style_name g = "Solid" /\
    panel w' = panel w /\
    _default_color w' = _default_color w /\
    _default_thickness w' = _default_thickness w /\
    _default_style w' = _default_style w.
Proof.
  intros Hint Hb. unfold canvas_pressed, mousePressEvent. rewrite Hint, Hb. simpl.
  case_bool_decide; simpl; eexists _, _; (split; [reflexivity |]); done.
Qed.

(** C8, evaluated where it fails.  After blue, thickness 5 and "Dashed" were
    chosen in the panel (and stored by the window as its defaults), the
    panel's add button adds a blue dashed guide of thickness 5, and a middle
    press on the canvas adds an orange solid guide of thickness 2. *)
Theorem middle_press_ignores_configured_style :
  let w0 := mkWindow (setInteractive true init) panel_init (255, 140, 0, 255) 2 "Solid" in
  let w := panel_set_style "Dashed"
             (panel_set_thickness 5 (panel_pick_color (0, 0, 255, 255) w0)) in
  (_default_color w, _default_thickness w, _default_style w)
    = ((0, 0, 255, 255), 5, "Dashed") /\
  _guides (canvas (panel_add_clicked "v" (300, 40) (0, 0) w))
    = [mkGuide "v" 300 (0, 0, 255, 255) 5 "Dashed"] /\
  (exists w', canvas_pressed (mkEvent MiddleButton 0 300 40) w = Ok w' /\
     _guides (canvas w') = [mkGuide "v" 300 (255, 140, 0, 255) 2 "Solid"]) /\
  (exists w', canvas_pressed (mkEvent MiddleButton ShiftModifier 300 40) w = Ok w' /\
     _guides (canvas w') = [mkGuide "h" 40 (255, 140, 0, 255) 2 "Solid"]).
Proof.
  simpl. repeat split; eexists; split; reflexivity.
Qed.

(** ** Loading *)

(** What makes an entry malformed: it is no JSON object, or it has a key that
    is no field of [Guide], or it lacks [orientation] or [pos]. *)
Lemma malformed_cases item :
  malformed item <->
  match item with
  | PDict m =>
      ~ map_Forall (fun k _ => k ∈ Guide_params) m \/
      m !! "orientation" = None \/ m !! "pos" = None
  | _ => True
  end.
Proof.
  unfold malformed.
  destruct item as [| b | z | fm fe | s | l | l | m]; simpl; try (split; done).
  case_bool_decide as Hk.
  - destruct (m !! "orientation") as [o |], (m !! "pos") as [p |]; split;
      try (intros _ g; discriminate); try (intros _; tauto);
      try (intros H; exfalso; by eapply H);
      intros [? | [? | ?]]; done.
  - split; [by left | done].
Qed.










(** * Further properties of the code *)

(** ** The hit test *)

Lemma hit_mono r1 r2 p g : r1 <= r2 -> hit r1 p g -> hit r2 p g.
Proof. unfold hit. intros Hr [[Ho Hd] | [Ho Hd]]; [left | right]; split; done || lia. Qed.

Lemma loop_app radius p gs gs' : forall i0,
  findGuideAt_loop radius p i0 (gs ++ gs') =
  match findGuideAt_loop radius p i0 gs with
  | Some i => Some i
  | None => findGuideAt_loop radius p (i0 + PyList.len gs) gs'
  end.
Proof.
  induction gs as [| g gs IH]; intros i0.
  - simpl. f_equal. unfold PyList.len. simpl. lia.
  - rewrite <- app_comm_cons, !loop_cons. case_bool_decide; [done |].
    rewrite IH. destruct (findGuideAt_loop radius p (i0 + 1) gs); [done |].
    f_equal. unfold PyList.len. simpl. lia.
Qed.

(** Whatever the hover test finds can be clicked: when the hit test with the
    hover radius answers [i], the test with the drag radius answers too, and
    its answer is [i] or a guide before it. *)
Theorem hover_hit_is_clickable (c : OverlayCanvas) (p : Z * Z) (i : Z) :
  _findGuideAt c p false = Some i ->
  exists j, _findGuideAt c p true = Some j /\ 0 <= j <= i.
Proof.
  unfold _findGuideAt. intros (k & g & -> & Hk & Hhit & _)%loop_some.
  apply (hit_mono _ GUIDE_DRAG_RADIUS) in Hhit; [| unfold GUIDE_HIT_RADIUS, GUIDE_DRAG_RADIUS; lia].
  destruct (findGuideAt_loop GUIDE_DRAG_RADIUS p 0 (_guides c)) as [j |] eqn:Hj.
  - exists j. split; [done |].
    apply loop_some in Hj as (k' & g' & -> & Hk' & _ & Hfirst).
    destruct (decide (k' <= k)%nat) as [Hle | Hgt]; [lia |].
    exfalso. apply (Hfirst k g); [lia | done | done].
  - exfalso. by eapply (proj1 (loop_none _ _ _ _) Hj).
Qed.

Lemma hover_hit_is_clickable_witness :
  exists j,
    _findGuideAt (mkCanvas [Guide2 "h" 50; Guide2 "v" 100] None None true None) (110, 68) true
      = Some j /\ 0 <= j <= 1.
Proof.
  apply (hover_hit_is_clickable
           (mkCanvas [Guide2 "h" 50; Guide2 "v" 100] None None true None) (110, 68) 1).
  reflexivity.
Defined.

(** Adding a guide never changes which guide a point hits: a point that hit
    guide [i] still hits [i], and a point that hit nothing hits the new
    guide, at the old length, exactly when it is within the radius of it. *)
Theorem addGuide_keeps_hits (c : OverlayCanvas) (g : Guide) (p : Z * Z) (b : bool) :
  _findGuideAt (addGuide g c) p b =
  match _findGuideAt c p b with
  | Some i => Some i
  | None =>
      if bool_decide (hit (if b then GUIDE_DRAG_RADIUS else GUIDE_HIT_RADIUS) p g)
      then Some (PyList.len (_guides c)) else None
  end.
Proof.
  unfold _findGuideAt, addGuide. simpl. rewrite loop_app.
  destruct (findGuideAt_loop _ p 0 (_guides c)); [done |].
  rewrite loop_cons. simpl. by rewrite Z.add_0_l.
Qed.

(** A guide whose orientation is neither "v" nor "h" (the settings file can
    hold any string) is drawn by [paintEvent] as a horizontal line at its
    position, but no point ever hits it: it can be neither hovered, dragged
    nor deleted with the mouse. *)
Theorem odd_orientation_drawn_never_hit (c : OverlayCanvas) (k : nat) (g : Guide) :
  _guides c !! k = Some g ->
  orientation g <> "v" -> orientation g <> "h" ->
  (forall p b, _findGuideAt c p b <> Some (Z.of_nat k)) /\
  (forall width height, guide_line width height g = (0, pos g, width, pos g)).
Proof.
  intros Hk Hv Hh. split.
  - intros p b Hf. unfold _findGuideAt in Hf.
    apply loop_some in Hf as (k' & g' & Heq & Hk' & Hhit & _).
    assert (k' = k) as -> by lia. rewrite Hk in Hk'. injection Hk' as <-.
    destruct Hhit as [[Ho _] | [Ho _]]; done.
  - intros width height. unfold guide_line. by rewrite bool_decide_eq_false_2.
Qed.

Lemma odd_orientation_drawn_never_hit_witness :
  _findGuideAt (mkCanvas [Guide2 "v" 10; Guide2 "x" 50] None None true None) (300, 50) true
    <> Some 1 /\
  guide_line 1920 1080 (Guide2 "x" 50) = (0, 50, 1920, 50).
Proof.
  destruct (odd_orientation_drawn_never_hit
              (mkCanvas [Guide2 "v" 10; Guide2 "x" 50] None None true None) 1 (Guide2 "x" 50))
    as [Hnever Hline]; [reflexivity | discriminate | discriminate |].
  split; [apply (Hnever (300, 50) true) | apply Hline].
Defined.

(** ** The collection *)

Lemma renumbered_lookup (gs : list Guide) (i p : Z) :
  0 <= i < PyList.len gs -> 0 <= p < PyList.len gs -> p <> i ->
  exists p',
    (if bool_decide (p = i) then None
     else if bool_decide (p > i) then Some (p - 1) else Some p) = Some p' /\
    0 <= p' < PyList.len gs - 1 /\
    delete (Z.to_nat i) gs !! Z.to_nat p' = gs !! Z.to_nat p.
Proof.
  intros Hi Hp Hne. rewrite bool_decide_eq_false_2 by done.
  case_bool_decide as Hgt.
  - exists (p - 1). split; [done |]. split; [lia |].
    rewrite list_lookup_delete_ge by lia. f_equal. lia.
  - exists p. split; [done |]. split; [lia |].
    rewrite list_lookup_delete_lt by lia. done.
Qed.

(** Removing guide [i] never makes an index point at another guide: an
    interaction index that referred to a guide other than [i] refers to that
    same guide afterwards (renumbered if it came after [i]), and the
    collection is one shorter. *)
Theorem removeGuideAt_keeps_tracked_guide (i p : Z) (c : OverlayCanvas) :
  0 <= i < PyList.len (_guides c) ->
  0 <= p < PyList.len (_guides c) ->
  p <> i ->
  exists c', removeGuideAt i c = Ok c' /\
    PyList.len (_guides c') = PyList.len (_guides c) - 1 /\
    (_positioning_idx c = Some p ->
       exists p', _positioning_idx c' = Some p' /\
                  _guides c' !! Z.to_nat p' = _guides c !! Z.to_nat p) /\
    (_hover_idx c = Some p ->
       exists h', _hover_idx c' = Some h' /\
                  _guides c' !! Z.to_nat h' = _guides c !! Z.to_nat p).
Proof.
  intros Hi Hp Hne.
  destruct (removeGuideAt_valid i c Hi) as (c' & Hr & Hg & _ & Hp' & Hh').
  destruct (renumbered_lookup (_guides c) i p Hi Hp Hne) as (p' & Hren & _ & Hlook).
  exists c'. split; [done |]. rewrite Hg. split; [by apply len_delete |].
  split.
  - intros Hpc. rewrite Hpc in Hp'. exists p'. by rewrite Hp', Hren.
  - intros Hhc. rewrite Hhc in Hh'. exists p'. by rewrite Hh', Hren.
Qed.

Lemma removeGuideAt_keeps_tracked_guide_witness :
  exists c' p',
    removeGuideAt 0
      (mkCanvas [Guide2 "v" 10; Guide2 "h" 20; Guide2 "v" 30] (Some 2) (Some 2) true None)
      = Ok c' /\
    _positioning_idx c' = Some p' /\ _guides c' !! Z.to_nat p' = Some (Guide2 "v" 30).
Proof.
  destruct (removeGuideAt_keeps_tracked_guide 0 2
    (mkCanvas [Guide2 "v" 10; Guide2 "h" 20; Guide2 "v" 30] (Some 2) (Some 2) true None))
    as (c' & Hr & _ & Hp & _).
  - unfold PyList.len; simpl; lia.
  - unfold PyList.len; simpl; lia.
  - lia.
  - destruct (Hp eq_refl) as (p' & Hp' & Hlook).
    exists c', p'. split; [exact Hr |]. split; [exact Hp' | exact Hlook].
Defined.

(** Adding a guide and then removing the last index gives back the canvas
    as it was, indices included, when no index was dangling. *)
Theorem add_then_remove_last (g : Guide) (c : OverlayCanvas) :
  no_dangling c ->
  removeGuideAt (PyList.len (_guides c)) (addGuide g c) = Ok c.
Proof.
  intros [Hh Hp]. destruct c as [gs h p b lm]. simpl in *.
  assert (0 <= PyList.len gs < PyList.len (gs ++ [g])) as Hi.
  { rewrite len_app_one. unfold PyList.len. lia. }
  unfold removeGuideAt, addGuide. simpl.
  rewrite bool_decide_eq_true_2 by done. rewrite delitem_in_range by done. simpl.
  assert (delete (Z.to_nat (PyList.len gs)) (gs ++ [g]) = gs) as ->.
  { unfold PyList.len. rewrite Nat2Z.id, (delete_middle gs [] g). apply app_nil_r. }
  destruct p as [p |], h as [h |]; simpl in *;
    rewrite ?bool_decide_eq_false_2 by lia; simpl;
    rewrite ?bool_decide_eq_false_2 by lia; done.
Qed.

Lemma add_then_remove_last_witness :
  removeGuideAt 2
    (addGuide (Guide2 "h" 7)
       (mkCanvas [Guide2 "v" 10; Guide2 "h" 20] (Some 1) (Some 1) true None))
  = Ok (mkCanvas [Guide2 "v" 10; Guide2 "h" 20] (Some 1) (Some 1) true None).
Proof.
  apply (add_then_remove_last (Guide2 "h" 7)
           (mkCanvas [Guide2 "v" 10; Guide2 "h" 20] (Some 1) (Some 1) true None)).
  split; simpl; unfold PyList.len; simpl; lia.
Defined.

(** [clearGuides] empties the collection and, on a canvas without dangling
    index, leaves both indices at [None] and the mode as it was; clearing
    twice is clearing once. *)
Theorem clearGuides_resets (c : OverlayCanvas) :
  no_dangling c ->
  _guides (clearGuides c) = [] /\
  _hover_idx (clearGuides c) = None /\
  _positioning_idx (clearGuides c) = None /\
  _interactive (clearGuides c) = _interactive c /\
  clearGuides (clearGuides c) = clearGuides c.
Proof.
  intros [Hh Hp]. destruct c as [[| g gs] h p b lm]; simpl in *.
  - destruct h as [h |], p as [p |]; simpl in *; unfold PyList.len in *;
      simpl in *; try lia.
    repeat split; reflexivity.
  - repeat split; reflexivity.
Qed.

Lemma clearGuides_resets_witness :
  let c := mkCanvas [Guide2 "v" 10; Guide2 "h" 20] (Some 1) (Some 1) true None in
  _guides (clearGuides c) = [] /\
  _hover_idx (clearGuides c) = None /\
  _positioning_idx (clearGuides c) = None /\
  _interactive (clearGuides c) = true /\
  clearGuides (clearGuides c) = clearGuides c.
Proof.
  apply (clearGuides_resets
           (mkCanvas [Guide2 "v" 10; Guide2 "h" 20] (Some 1) (Some 1) true None)).
  split; simpl; unfold PyList.len; simpl; lia.
Defined.

(** ** Pointer events *)

(** A right press that hits guide [i] removes exactly that guide.  If [i]
    was being dragged the drag ends, if it was hovered the hover ends, and
    a drag of another guide goes on with that same guide. *)
Theorem right_press_deletes (e : QMouseEvent) (c : OverlayCanvas) (i : Z) :
  _interactive c = true ->
  button e = RightButton ->
  _findGuideAt c (ev_pos e) true = Some i ->
  exists c', mousePressEvent e c = Ok c' /\
    _guides c' = delete (Z.to_nat i) (_guides c) /\
    PyList.len (_guides c') = PyList.len (_guides c) - 1 /\
    (_positioning_idx c = Some i -> _positioning_idx c' = None) /\
    (_hover_idx c = Some i -> _hover_idx c' = None) /\
    (forall p, _positioning_idx c = Some p -> 0 <= p < PyList.len (_guides c) -> p <> i ->
       exists p', _positioning_idx c' = Some p' /\
                  _guides c' !! Z.to_nat p' = _guides c !! Z.to_nat p).
Proof.
  intros Hint Hb Hf. pose proof (findGuideAt_in_range _ _ _ _ Hf) as Hi.
  unfold mousePressEvent. rewrite Hint, Hb. simpl.
  change (_findGuideAt (with_last_mouse_pos (ev_pos e) c) (ev_pos e) true)
    with (_findGuideAt c (ev_pos e) true).
  rewrite Hf.
  set (c1 := if bool_decide (_positioning_idx c = Some i)
             then with_positioning_idx None (with_last_mouse_pos (ev_pos e) c)
             else with_last_mouse_pos (ev_pos e) c).
  assert (_guides c1 = _guides c) as Hg1 by (unfold c1; by case_bool_decide).
  assert (_hover_idx c1 = _hover_idx c) as Hh1 by (unfold c1; by case_bool_decide).
  assert (_positioning_idx c1 =
          if bool_decide (_positioning_idx c = Some i) then None else _positioning_idx c)
    as Hp1 by (unfold c1; by case_bool_decide).
  destruct (removeGuideAt_valid i c1) as (c' & Hr & Hg & _ & Hp & Hh);
    [by rewrite Hg1 |].
  exists c'. split; [done |]. rewrite Hg, Hg1, Hp, Hh, Hp1, Hh1.
  split; [done |]. split; [by apply len_delete |]. split; [| split].
  - intros Hpc. by rewrite bool_decide_eq_true_2.
  - intros ->. by rewrite bool_decide_eq_true_2.
  - intros p Hpc Hp' Hne. rewrite Hpc.
    rewrite bool_decide_eq_false_2 by congruence.
    destruct (renumbered_lookup (_guides c) i p Hi Hp' Hne) as (p' & -> & _ & Hlook).
    by exists p'.
Qed.

Lemma right_press_deletes_witness :
  exists c',
    mousePressEvent (mkEvent RightButton 0 30 400)
      (mkCanvas [Guide2 "v" 10; Guide2 "h" 200] (Some 0) (Some 0) true None) = Ok c' /\
    _guides c' = [Guide2 "h" 200] /\
    _positioning_idx c' = None /\ _hover_idx c' = None.
Proof.
  destruct (right_press_deletes (mkEvent RightButton 0 30 400)
              (mkCanvas [Guide2 "v" 10; Guide2 "h" 200] (Some 0) (Some 0) true None) 0)
    as (c' & Hr & Hg & _ & Hp & Hh & _); [reflexivity | reflexivity | reflexivity |].
  exists c'. split; [exact Hr |]. split; [rewrite Hg; reflexivity |].
  split; [apply Hp | apply Hh]; reflexivity.
Defined.

(** A right press that hits no guide, and a press of a button other than
    left, right and middle, change neither the guides nor the indices nor
    the mode. *)
Theorem press_without_target (e : QMouseEvent) (c : OverlayCanvas) :
  _interactive c = true ->
  (button e = RightButton /\ _findGuideAt c (ev_pos e) true = None) \/
    button e = OtherButton ->
  exists c', mousePressEvent e c = Ok c' /\
    _guides c' = _guides c /\ _hover_idx c' = _hover_idx c /\
    _positioning_idx c' = _positioning_idx c /\ _interactive c' = true.
Proof.
  intros Hint Hcase. unfold mousePressEvent. rewrite Hint. simpl.
  destruct Hcase as [[-> Hf] | ->].
  - change (_findGuideAt (with_last_mouse_pos (ev_pos e) c) (ev_pos e) true)
      with (_findGuideAt c (ev_pos e) true).
    rewrite Hf. by eexists.
  - by eexists.
Qed.

Lemma press_without_target_witness :
  exists c',
    mousePressEvent (mkEvent RightButton 0 500 400)
      (mkCanvas [Guide2 "v" 10] (Some 0) (Some 0) true None) = Ok c' /\
    _guides c' = [Guide2 "v" 10] /\ _positioning_idx c' = Some 0.
Proof.
  destruct (press_without_target (mkEvent RightButton 0 500 400)
              (mkCanvas [Guide2 "v" 10] (Some 0) (Some 0) true None))
    as (c' & Hr & Hg & _ & Hp & _); [reflexivity | left; split; reflexivity |].
  exists c'. split; [exact Hr |]. split; [exact Hg | exact Hp].
Defined.

Lemma land_ShiftModifier (m : Z) :
  Z.land m ShiftModifier <> 0 <-> Z.testbit m 25 = true.
Proof.
  unfold ShiftModifier. change 0x02000000 with (2 ^ 25). split.
  - intros Hne. destruct (Z.testbit m 25) eqn:Hb; [done |].
    exfalso. apply Hne. apply Z.bits_inj'. intros n Hn.
    rewrite Z.land_spec, Z.bits_0, Z.pow2_bits_eqb by lia.
    destruct (Z.eqb_spec 25 n) as [<- | Hn']; [by rewrite Hb | apply andb_false_r].
  - intros Hb Hz.
    assert (Z.testbit (Z.land m (2 ^ 25)) 25 = true) as Ht.
    { rewrite Z.land_spec, Hb, Z.pow2_bits_eqb by lia. done. }
    rewrite Hz, Z.bits_0 in Ht. done.
Qed.

(** A middle press appends one guide and touches neither index: a
    horizontal guide at the pointer's y when the Shift bit (bit 25) of the
    modifiers is set, whatever the other modifier bits, and a vertical guide
    at the pointer's x otherwise. *)
Theorem middle_press_adds (e : QMouseEvent) (c : OverlayCanvas) :
  _interactive c = true ->
  button e = MiddleButton ->
  exists c', mousePressEvent e c = Ok c' /\
    _guides c' = _guides c ++
      [if Z.testbit (modifiers e) 25 then Guide2 "h" (ev_y e) else Guide2 "v" (ev_x e)] /\
    _hover_idx c' = _hover_idx c /\ _positioning_idx c' = _positioning_idx c.
Proof.
  intros Hint Hb. unfold mousePressEvent. rewrite Hint, Hb.
  destruct (Z.testbit (modifiers e) 25) eqn:Ht.
  - rewrite bool_decide_eq_true_2 by (by apply land_ShiftModifier). by eexists.
  - rewrite bool_decide_eq_false_2; [by eexists |].
    rewrite land_ShiftModifier. by rewrite Ht.
Qed.

Lemma middle_press_adds_witness :
  exists c',
    mousePressEvent (mkEvent MiddleButton 0x06000000 300 40)
      (mkCanvas [Guide2 "v" 10] None None true None) = Ok c' /\
    _guides c' = [Guide2 "v" 10; Guide2 "h" 40].
Proof.
  destruct (middle_press_adds (mkEvent MiddleButton 0x06000000 300 40)
              (mkCanvas [Guide2 "v" 10] None None true None))
    as (c' & Hr & Hg & _); [reflexivity | reflexivity |].
  exists c'. split; [exact Hr | exact Hg].
Defined.

(** With no drag in progress a pointer move makes [_hover_idx] the answer
    of the hit test with the hover radius at the pointer, [None] included,
    and changes nothing else. *)
Theorem idle_move_tracks_hover (width height : Z) (e : QMouseEvent) (c : OverlayCanvas) :
  _interactive c = true ->
  _positioning_idx c = None ->
  exists c', mouseMoveEvent width height e c = Ok c' /\
    _hover_idx c' = _findGuideAt c (ev_pos e) false /\
    _guides c' = _guides c /\ _positioning_idx c' = None /\ _interactive c' = true.
Proof.
  intros Hint Hp. unfold mouseMoveEvent. rewrite Hint. simpl. rewrite Hp.
  change (_findGuideAt (with_last_mouse_pos (ev_pos e) c) (ev_pos e) false)
    with (_findGuideAt c (ev_pos e) false).
  case_bool_decide as Hne.
  - eexists. split; [reflexivity |]. by simpl.
  - eexists. split; [reflexivity |]. simpl. repeat split; try done.
Qed.

Lemma idle_move_tracks_hover_witness :
  exists c',
    mouseMoveEvent 1920 1080 (mkEvent OtherButton 0 115 7)
      (mkCanvas [Guide2 "h" 500; Guide2 "v" 100] None None true None) = Ok c' /\
    _hover_idx c' = Some 1.
Proof.
  destruct (idle_move_tracks_hover 1920 1080 (mkEvent OtherButton 0 115 7)
              (mkCanvas [Guide2 "h" 500; Guide2 "v" 100] None None true None))
    as (c' & Hm & Hh & _); [reflexivity | reflexivity |].
  exists c'. split; [exact Hm | exact Hh].
Defined.



(** A drag in progress on a canvas without dangling index survives every
    operation that is not a left press, a right press, a switch to passive
    mode, a removal, a clear or a replacement of the guides: adding a guide,
    moving the pointer, releasing a button, leaving the surface, a middle or
    other press and [setInteractive(True)] all keep [_positioning_idx]. *)
Theorem drag_survives (o : op) (c : OverlayCanvas) (p : Z) :
  no_dangling c ->
  _interactive c = true ->
  _positioning_idx c = Some p ->
  match o with
  | AddGuide _ | MouseMove _ _ _ | MouseRelease _ | Leave | SetInteractive true => True
  | MousePress e => button e = MiddleButton \/ button e = OtherButton
  | _ => False
  end ->
  exists c', step o c = Ok c' /\
    _positioning_idx c' = Some p /\ _hover_idx c' = _hover_idx c /\
    PyList.len (_guides c) <= PyList.len (_guides c').
Proof.
  intros [Hh Hv] Hint Hp Ho. rewrite Hp in Hv. simpl in Hv.
  destruct o as [[|] | g | i | | gs | e | width height e | e |]; try done; simpl.
  - eexists. split; [reflexivity |]. simpl. by rewrite Hp.
  - eexists. split; [reflexivity |]. simpl. rewrite len_app_one. split; [done |].
    split; [done | lia].
  - unfold mousePressEvent. rewrite Hint. simpl.
    destruct Ho as [-> | ->].
    + case_bool_decide; eexists; (split; [reflexivity |]); simpl;
        rewrite len_app_one; (split; [done |]); (split; [done | lia]).
    + eexists. split; [reflexivity |]. simpl. by rewrite Hp.
  - unfold mouseMoveEvent. rewrite Hint. simpl. rewrite Hp.
    rewrite bool_decide_eq_true_2 by lia.
    destruct (mutate_at_in_range (_guides c) p
                (fun g0 => if bool_decide (orientation g0 = "v")
                           then set_pos (Z.max 0 (Z.min (width - 1) (ev_x e))) g0
                           else set_pos (Z.max 0 (Z.min (height - 1) (ev_y e))) g0) Hv)
      as (g & Hg & ->).
    simpl. eexists. split; [reflexivity |]. simpl. rewrite Hp, len_insert. done.
  - eexists. split; [reflexivity |]. unfold mouseReleaseEvent. by rewrite Hp.
  - eexists. split; [reflexivity |]. unfold leaveEvent. rewrite Hint, Hp. simpl.
    by rewrite Hp.
Qed.

Lemma drag_survives_witness :
  exists c',
    step Leave (mkCanvas [Guide2 "v" 100] (Some 0) (Some 0) true None) = Ok c' /\
    _positioning_idx c' = Some 0.
Proof.
  destruct (drag_survives Leave (mkCanvas [Guide2 "v" 100] (Some 0) (Some 0) true None) 0)
    as (c' & Hs & Hp & _).
  - split; simpl; unfold PyList.len; simpl; lia.
  - reflexivity.
  - reflexivity.
  - exact I.
  - exists c'. split; [exact Hs | exact Hp].
Defined.



(** What can change the collection.  Switching the mode, releasing a
    button, leaving the surface, a left or other press and a pointer move
    with no drag in progress never change the guides; a move changes them
    only during a drag in interactive mode, a press only with the right or
    the middle button. *)
Theorem guides_changed_only_by (o : op) (c c' : OverlayCanvas) :
  step o c = Ok c' ->
  _guides c' <> _guides c ->
  match o with
  | SetInteractive _ | MouseRelease _ | Leave => False
  | MousePress e =>
      _interactive c = true /\ (button e = RightButton \/ button e = MiddleButton)
  | MouseMove _ _ _ => _interactive c = true /\ _positioning_idx c <> None
  | AddGuide _ | RemoveGuideAt _ | ClearGuides | SetGuides _ => True
  end.
Proof.
  intros Hs Hne. destruct o as [b | g | i | | gs | e | width height e | e |];
    simpl in Hs; try done.
  - injection Hs as <-. apply Hne. unfold setInteractive. by destruct b.
  - unfold mousePressEvent in Hs.
    destruct (_interactive c); simpl in Hs; [| by injection Hs as <-].
    split; [done |]. destruct (button e); [| by left | by right |].
    + exfalso. apply Hne. repeat case_match; by injection Hs as <-.
    + exfalso. apply Hne. by injection Hs as <-.
  - unfold mouseMoveEvent in Hs.
    destruct (_interactive c); simpl in Hs; [| by injection Hs as <-].
    split; [done |]. destruct (_positioning_idx c); [done |].
    exfalso. apply Hne. case_bool_decide; by injection Hs as <-.
  - by injection Hs as <-.
  - injection Hs as <-. apply Hne. unfold leaveEvent.
    by repeat case_match.
Qed.

Lemma guides_changed_only_by_witness :
  _interactive (mkCanvas [Guide2 "v" 100] None None true None) = true /\
  (button (mkEvent MiddleButton 0 5 5) = RightButton \/
   button (mkEvent MiddleButton 0 5 5) = MiddleButton).
Proof.
  apply (guides_changed_only_by (MousePress (mkEvent MiddleButton 0 5 5))
           (mkCanvas [Guide2 "v" 100] None None true None)
           (mkCanvas [Guide2 "v" 100; Guide2 "v" 5] None None true (Some (5, 5)))).
  - reflexivity.
  - simpl. discriminate.
Defined.

(** ** Painting *)

Local Abbreviation requested_pen g :=
  (mkPen (color g) (thickness g) (default SolidLine (STYLE_MAP !! style_name g)) true).

Local Abbreviation strokes_of width height gs :=
  ((fun g => (requested_pen g, guide_line width height g)) <$> gs).

Lemma getitem_in_range {A : Type} (l : list A) (i : Z) :
  0 <= i < PyList.len l ->
  exists a, l !! Z.to_nat i = Some a /\ getitem l i = Ok a.
Proof.
  intros Hi. unfold getitem. rewrite resolve_in_range by done. simpl.
  destruct (lookup_lt_is_Some_2 l (Z.to_nat i)) as [a Ha];
    [unfold PyList.len in Hi; lia |].
  exists a. by rewrite Ha.
Qed.

Lemma c_int_fits z : fits z -> c_int z = inr z.
Proof. intros Hz. unfold c_int. by rewrite bool_decide_eq_true_2. Qed.

Lemma c_int_overflow z : ~ fits z -> c_int z = inl OverflowError.
Proof. intros Hz. unfold c_int. by rewrite bool_decide_eq_false_2. Qed.

Lemma to_pen_fits g : pen_fits g -> to_pen g = inr (requested_pen g).
Proof.
  destruct g as [o p [[[r gr] b] al] t s]. unfold pen_fits, to_pen. simpl.
  intros (Hr & Hgr & Hb & Hal & Ht). by rewrite !c_int_fits.
Qed.

Lemma fits_dec z : fits z \/ ~ fits z.
Proof. unfold fits. lia. Qed.

Ltac c_int_case z :=
  destruct (fits_dec z);
  [rewrite (c_int_fits z) by done; cbn
  | rewrite (c_int_overflow z) by done; try done].

Lemma to_pen_overflow g : ~ pen_fits g -> to_pen g = inl OverflowError.
Proof.
  destruct g as [o p [[[r gr] b] al] t s]. unfold pen_fits, to_pen. simpl.
  intros Hno.
  c_int_case r. c_int_case gr. c_int_case b. c_int_case al. c_int_case t.
  by destruct Hno.
Qed.

Lemma pen_fits_dec g : pen_fits g \/ ~ pen_fits g.
Proof.
  destruct g as [o p [[[r gr] b] al] t s]. unfold pen_fits, fits. simpl.
  destruct (decide (- 2 ^ 31 <= r < 2 ^ 31 /\ - 2 ^ 31 <= gr < 2 ^ 31 /\
                    - 2 ^ 31 <= b < 2 ^ 31 /\ - 2 ^ 31 <= al < 2 ^ 31 /\
                    - 2 ^ 31 <= t < 2 ^ 31)); tauto.
Qed.

Lemma to_pen_inr g pen : to_pen g = inr pen -> pen_fits g /\ pen = requested_pen g.
Proof.
  intros Hp. destruct (pen_fits_dec g) as [Hf | Hf].
  - rewrite to_pen_fits in Hp by done. by injection Hp as <-.
  - by rewrite to_pen_overflow in Hp.
Qed.

Lemma drawLine_fits width height g :
  fits (pos g) -> fits width -> fits height ->
  drawLine (guide_line width height g) = inr (guide_line width height g).
Proof.
  intros Hp Hw Hh. unfold guide_line, drawLine.
  assert (fits 0) by (unfold fits; lia).
  case_bool_decide; by rewrite !c_int_fits.
Qed.

Lemma drawLine_overflow width height g :
  ~ fits (pos g) -> drawLine (guide_line width height g) = inl OverflowError.
Proof.
  intros Hp. unfold guide_line, drawLine.
  assert (fits 0) by (unfold fits; lia).
  case_bool_decide.
  - by rewrite (c_int_overflow (pos g)).
  - rewrite (c_int_fits 0) by done. cbn. by rewrite (c_int_overflow (pos g)).
Qed.

Lemma drawLine_no_subscript l e : drawLine l <> inl (Subscript e).
Proof.
  destruct l as [[[x1 y1] x2] y2]. unfold drawLine.
  c_int_case x1. c_int_case y1. c_int_case x2. c_int_case y2. done.
Qed.

Lemma paint_guides_fits width height gs :
  Forall drawable gs -> fits width -> fits height ->
  paint_guides width height gs = inr (strokes_of width height gs).
Proof.
  intros Hall Hw Hh. induction Hall as [| g gs [Hpen Hpos] _ IH]; simpl; [done |].
  rewrite to_pen_fits by done. simpl. rewrite drawLine_fits by done. simpl.
  by rewrite IH.
Qed.

Lemma paint_guides_no_subscript width height gs e :
  paint_guides width height gs <> inl (Subscript e).
Proof.
  induction gs as [| g gs IH]; simpl; [done |].
  destruct (pen_fits_dec g) as [Hf | Hf];
    [rewrite to_pen_fits by done | by rewrite to_pen_overflow].
  simpl. destruct (drawLine _) as [err | l] eqn:Hd; simpl.
  - intros [= ->]. by eapply drawLine_no_subscript.
  - destruct (paint_guides width height gs) as [err | rest]; simpl; [| done].
    intros [= ->]. by apply IH.
Qed.

Lemma paint_guides_overflow width height gs :
  Exists (fun g => ~ drawable g) gs ->
  paint_guides width height gs = inl OverflowError.
Proof.
  induction 1 as [g gs Hbad | g gs _ IH]; simpl.
  - destruct (pen_fits_dec g) as [Hf | Hf];
      [rewrite to_pen_fits by done | by rewrite to_pen_overflow].
    simpl. rewrite drawLine_overflow; [done |].
    intros Hpos. apply Hbad. by split.
  - destruct (to_pen g) as [err | pen] eqn:Hp; simpl.
    + destruct (pen_fits_dec g) as [Hf | Hf];
        [by rewrite to_pen_fits in Hp | rewrite to_pen_overflow in Hp by done; congruence].
    + destruct (drawLine _) as [err | l] eqn:Hd; simpl; [| by rewrite IH].
      destruct err as [| e]; [done |]. by destruct (drawLine_no_subscript _ e Hd).
Qed.

(** The shape of a successful paint with a highlight, shared by the
    statements below. *)
Lemma paintEvent_with_highlight width height c hi g :
  highlight_idx c = Some hi -> 0 <= hi ->
  _guides c !! Z.to_nat hi = Some g ->
  Forall drawable (_guides c) -> fits width -> fits height ->
  thickness g < 2 ^ 31 - 6 ->
  paintEvent width height c =
    inr (strokes_of width height (_guides c) ++
         [(if bool_decide (_positioning_idx c = Some hi)
           then mkPen (255, 255, 0, 200) (Z.max 6 (thickness g + 6)) SolidLine true
           else mkPen (255, 255, 0, 120) (Z.max 4 (thickness g + 4)) SolidLine true,
           guide_line width height g)]).
Proof.
  intros Hhi Hpos Hg Hall Hw Hh Ht.
  assert (0 <= hi < PyList.len (_guides c)) as Hr.
  { apply lookup_lt_Some in Hg. unfold PyList.len. lia. }
  assert (drawable g) as [Hpen Hgpos].
  { rewrite Forall_lookup in Hall. by eapply Hall. }
  assert (fits (thickness g)) as Hft.
  { destruct g as [o p [[[r gr] b] al] t s]. unfold pen_fits in Hpen. simpl in *. tauto. }
  unfold paintEvent. rewrite paint_guides_fits by done. simpl.
  rewrite Hhi, bool_decide_eq_true_2 by done.
  destruct (getitem_in_range (_guides c) hi Hr) as (g' & Hg' & ->).
  rewrite Hg in Hg'. injection Hg' as <-.
  unfold fits in Hft.
  case_bool_decide; rewrite c_int_fits by (unfold fits; lia); simpl;
    rewrite drawLine_fits by done; done.
Qed.

(** What [paintEvent] can raise.  Whatever the indices hold, the subscript
    of the highlight never raises.  Painting raises [OverflowError] when a
    guide has a position, a thickness or a color channel that does not fit
    a C [int].  When every number fits, painting succeeds: every guide is
    drawn with its own pen in collection order, followed by at most one
    more line, and by none in passive mode, with no index set, or with the
    picked index outside the collection. *)
Theorem paintEvent_raises_only_overflow (width height : Z) (c : OverlayCanvas) :
  (forall e, paintEvent width height c <> inl (Subscript e)) /\
  (Exists (fun g => ~ drawable g) (_guides c) ->
     paintEvent width height c = inl OverflowError) /\
  (Forall drawable (_guides c) ->
   Forall (fun g => thickness g < 2 ^ 31 - 6) (_guides c) ->
   fits width -> fits height ->
   exists strokes extra,
     paintEvent width height c = inr (strokes ++ extra) /\
     Forall2 (fun g cmd => to_pen g = inr cmd.1 /\ cmd.2 = guide_line width height g)
       (_guides c) strokes /\
     (length extra <= 1)%nat /\
     (_interactive c = false \/
      (_positioning_idx c = None /\ _hover_idx c = None) \/
      (forall hi, highlight_idx c = Some hi -> ~ 0 <= hi < PyList.len (_guides c)) ->
      extra = [])).
Proof.
  split; [| split].
  - intros e. unfold paintEvent.
    destruct (paint_guides width height (_guides c)) as [err | strokes] eqn:Hs; simpl.
    { intros [= ->]. by eapply paint_guides_no_subscript. }
    destruct (highlight_idx c) as [hi |]; [| done].
    case_bool_decide as Hr; [| done].
    destruct (getitem_in_range (_guides c) hi Hr) as (g & _ & ->).
    destruct (bool_decide (_positioning_idx c = Some hi)); unfold c_int;
      (case_bool_decide; simpl; [| done]);
      (destruct (drawLine _) as [err | l] eqn:Hd; simpl; [| done]);
      intros [= ->]; by eapply drawLine_no_subscript.
  - intros Hbad. unfold paintEvent. by rewrite paint_guides_overflow.
  - intros Hall Hthin Hw Hh.
    assert (Forall2 (fun g cmd => to_pen g = inr cmd.1 /\ cmd.2 = guide_line width height g)
              (_guides c) (strokes_of width height (_guides c))) as Hstrokes.
    { apply Forall2_fmap_r, Forall_Forall2_diag.
      eapply Forall_impl; [exact Hall |]. intros g [Hpen _]. simpl.
      by rewrite to_pen_fits. }
    destruct (highlight_idx c) as [hi |] eqn:Hhi.
    + destruct (decide (0 <= hi < PyList.len (_guides c))) as [Hr | Hr].
      * destruct (getitem_in_range (_guides c) hi Hr) as (g & Hg & _).
        rewrite (paintEvent_with_highlight width height c hi g) by
          (try done; try lia; rewrite Forall_lookup in Hthin; by eapply Hthin).
        eexists _, [_]. split; [reflexivity |]. split; [done |]. split; [simpl; lia |].
        intros [Hint | [[Hp Hh'] | Hstale]].
        -- unfold highlight_idx in Hhi. by rewrite Hint in Hhi.
        -- unfold highlight_idx in Hhi. rewrite Hp, Hh' in Hhi.
           by destruct (_interactive c).
        -- by destruct (Hstale hi).
      * exists (strokes_of width height (_guides c)), [].
        unfold paintEvent. rewrite paint_guides_fits by done. simpl.
        rewrite Hhi, bool_decide_eq_false_2 by done. rewrite app_nil_r.
        split; [done |]. split; [done |]. split; [simpl; lia | done].
    + exists (strokes_of width height (_guides c)), [].
      unfold paintEvent. rewrite paint_guides_fits by done. simpl.
      rewrite Hhi, app_nil_r.
      split; [done |]. split; [done |]. split; [simpl; lia | done].
Qed.

Lemma paintEvent_raises_only_overflow_witness :
  paintEvent 1920 1080
    (mkCanvas [Guide2 "v" 100; Guide2 "h" (2 ^ 31)] None None true None)
  = inl OverflowError.
Proof.
  apply (proj1 (proj2 (paintEvent_raises_only_overflow 1920 1080
           (mkCanvas [Guide2 "v" 100; Guide2 "h" (2 ^ 31)] None None true None)))).
  apply Exists_cons_tl, Exists_cons_hd. unfold drawable, fits. simpl. lia.
Defined.

(** The highlight.  In interactive mode, when every number fits a C [int],
    the guide at a valid positioning index, or else at a valid hover index,
    is drawn once more after all guides, along its own line, with a solid
    yellow pen: [setWidth] is called with [max(6, thickness + 6)] and the
    color has alpha 200 for the dragged guide, [max(4, thickness + 4)] and
    alpha 120 for a hovered one, so with at least the guide's thickness
    plus 4. *)
Theorem paintEvent_highlight (width height : Z) (c : OverlayCanvas) (hi : Z) (g : Guide) :
  _interactive c = true ->
  highlight_idx c = Some hi ->
  _guides c !! Z.to_nat hi = Some g ->
  0 <= hi ->
  Forall drawable (_guides c) -> fits width -> fits height ->
  thickness g < 2 ^ 31 - 6 ->
  exists strokes pen,
    paintEvent width height c = inr (strokes ++ [(pen, guide_line width height g)]) /\
    length strokes = length (_guides c) /\
    setStyle_arg pen = SolidLine /\
    thickness g + 4 <= setWidth_arg pen /\
    (_positioning_idx c = Some hi ->
       QColor_args pen = (255, 255, 0, 200) /\
       setWidth_arg pen = Z.max 6 (thickness g + 6)) /\
    (_positioning_idx c = None ->
       _hover_idx c = Some hi /\
       QColor_args pen = (255, 255, 0, 120) /\
       setWidth_arg pen = Z.max 4 (thickness g + 4)).
Proof.
  intros Hint Hhi Hg Hpos Hall Hw Hh Ht.
  rewrite (paintEvent_with_highlight width height c hi g) by done.
  eexists _, _. split; [reflexivity |]. split; [by rewrite length_fmap |].
  unfold highlight_idx in Hhi. rewrite Hint in Hhi.
  destruct (_positioning_idx c) as [p |] eqn:Hp.
  - injection Hhi as ->. rewrite bool_decide_eq_true_2 by done. simpl.
    repeat split; try done; lia.
  - rewrite bool_decide_eq_false_2 by done. simpl.
    destruct (_hover_idx c) as [h |]; [| done]. injection Hhi as ->.
    repeat split; try done; lia.
Qed.

Lemma paintEvent_highlight_witness :
  exists strokes pen,
    paintEvent 1920 1080 (mkCanvas [Guide2 "h" 50; Guide2 "v" 100] (Some 1) (Some 1) true None)
    = inr (strokes ++ [(pen, (100, 0, 100, 1080))]) /\
    length strokes = 2%nat /\
    QColor_args pen = (255, 255, 0, 200) /\ setWidth_arg pen = 8.
Proof.
  destruct (paintEvent_highlight 1920 1080
              (mkCanvas [Guide2 "h" 50; Guide2 "v" 100] (Some 1) (Some 1) true None)
              1 (Guide2 "v" 100))
    as (strokes & pen & Hp & Hlen & _ & _ & Hdrag & _); try reflexivity.
  - lia.
  - repeat constructor; unfold fits; simpl; lia.
  - unfold fits; lia.
  - unfold fits; lia.
  - exists strokes, pen. split; [exact Hp |]. split; [exact Hlen |].
    apply Hdrag. reflexivity.
Defined.

(** [Guide.to_pen] raises [OverflowError] when a color channel or the
    thickness does not fit a C [int].  Otherwise it returns, and the style
    it passes to [setStyle] is a solid line for every style name outside
    [STYLE_NAMES] (the settings file can hold any string), while the five
    names of [STYLE_NAMES] give five different styles. *)
Theorem to_pen_style (g : Guide) :
  (~ pen_fits g -> to_pen g = inl OverflowError) /\
  (pen_fits g ->
     exists pen, to_pen g = inr pen /\
       (style_name g ∉ STYLE_NAMES -> setStyle_arg pen = SolidLine) /\
       (forall g' pen',
          to_pen g' = inr pen' ->
          style_name g ∈ STYLE_NAMES -> style_name g' ∈ STYLE_NAMES ->
          setStyle_arg pen = setStyle_arg pen' -> style_name g = style_name g')).
Proof.
  split; [apply to_pen_overflow |].
  intros Hfit. eexists. split; [by apply to_pen_fits |]. simpl. split.
  - intros Hnot.
    destruct (STYLE_MAP !! style_name g) as [st |] eqn:Hst; [| done].
    exfalso. apply Hnot. unfold STYLE_MAP in Hst.
    apply elem_of_list_to_map_2 in Hst. apply list_elem_of_fmap.
    by exists (style_name g, st).
  - intros g' pen' [_ ->]%to_pen_inr Hin Hin'. simpl.
    unfold STYLE_NAMES, STYLE_MAP_items in *. simpl in *.
    repeat (apply elem_of_cons in Hin as [-> | Hin]);
      [| | | | | by apply elem_of_nil in Hin];
      repeat (apply elem_of_cons in Hin' as [-> | Hin']);
      try (by apply elem_of_nil in Hin'); vm_compute; done.
Qed.

Lemma to_pen_style_witness :
  to_pen (mkGuide "v" 5 (1, 2, 3, 2 ^ 31) 9 "Solid") = inl OverflowError /\
  exists pen, to_pen (mkGuide "v" 5 (1, 2, 3, 4) 9 "Wavy") = inr pen /\
              setStyle_arg pen = SolidLine.
Proof.
  split.
  - apply (proj1 (to_pen_style (mkGuide "v" 5 (1, 2, 3, 2 ^ 31) 9 "Solid"))).
    unfold pen_fits, fits. simpl. lia.
  - destruct (proj2 (to_pen_style (mkGuide "v" 5 (1, 2, 3, 4) 9 "Wavy")))
      as (pen & Hp & Hsolid & _).
    + unfold pen_fits, fits. simpl. lia.
    + exists pen. split; [exact Hp |]. apply Hsolid.
      unfold STYLE_NAMES, STYLE_MAP_items. simpl. intros Hin.
      repeat (apply elem_of_cons in Hin as [Heq | Hin]; [discriminate Heq |]).
      by apply elem_of_nil in Hin.
Defined.

(** ** The control panel *)

(** "Add @ Cursor" puts the guide under the cursor.  The guide built by the
    panel has the panel's color, thickness and style and a position that is
    never negative; and when the cursor is on the primary screen, the hit
    test at the cursor's point on the canvas answers after the click, with
    the new guide or one before it. *)
Theorem panel_add_under_cursor (o : string) (cursor geo : Z * Z) (w : MainWindow) (b : bool) :
  o = "v" \/ o = "h" ->
  0 <= cursor.1 - geo.1 -> 0 <= cursor.2 - geo.2 ->
  let g := _emit_add o cursor geo (panel w) in
  orientation g = o /\ 0 <= pos g /\
  color g = _current_color (panel w) /\
  thickness g = thickness_spin (panel w) /\
  style_name g = style_combo (panel w) /\
  _guides (canvas (panel_add_clicked o cursor geo w)) = _guides (canvas w) ++ [g] /\
  exists j,
    _findGuideAt (canvas (panel_add_clicked o cursor geo w))
      (cursor.1 - geo.1, cursor.2 - geo.2) b = Some j /\
    0 <= j <= PyList.len (_guides (canvas w)).
Proof.
  intros Ho Hx Hy g. split; [done |]. split; [simpl; lia |].
  do 4 (split; [done |]).
  unfold _findGuideAt, panel_add_clicked, addGuide. simpl. rewrite loop_app.
  destruct (findGuideAt_loop _ _ 0 (_guides (canvas w))) as [j |] eqn:Hj.
  - exists j. split; [done |].
    apply loop_some in Hj as (k & g' & -> & Hk & _). apply lookup_lt_Some in Hk.
    unfold PyList.len. lia.
  - exists (PyList.len (_guides (canvas w))). rewrite loop_cons, bool_decide_eq_true_2.
    + split; [by rewrite Z.add_0_l | unfold PyList.len; lia].
    + unfold hit. simpl.
      destruct Ho as [-> | ->]; simpl; [left | right]; (split; [done |]);
        destruct b; unfold GUIDE_DRAG_RADIUS, GUIDE_HIT_RADIUS; lia.
Qed.

Lemma panel_add_under_cursor_witness :
  exists j,
    _findGuideAt
      (canvas (panel_add_clicked "h" (640, 480) (0, 0)
                 (mkWindow (mkCanvas [Guide2 "v" 10] None None true None)
                    (mkPanel (0, 0, 255, 255) 5 "Dashed") (0, 0, 255, 255) 5 "Dashed")))
      (640 - 0, 480 - 0) false = Some j /\ 0 <= j <= 1.
Proof.
  destruct (panel_add_under_cursor "h" (640, 480) (0, 0)
              (mkWindow (mkCanvas [Guide2 "v" 10] None None true None)
                 (mkPanel (0, 0, 255, 255) 5 "Dashed") (0, 0, 255, 255) 5 "Dashed") false)
    as (_ & _ & _ & _ & _ & _ & j & Hj & Hr).
  - by right.
  - simpl; lia.
  - simpl; lia.
  - exists j. split; [exact Hj | exact Hr].
Defined.

(** ** Settings mode and click-through *)

Lemma testbit_WS_EX_TRANSPARENT (n : Z) :
  0 <= n -> Z.testbit WS_EX_TRANSPARENT n = bool_decide (n = 5).
Proof.
  intros Hn. unfold WS_EX_TRANSPARENT. change 0x00000020 with (2 ^ 5).
  rewrite Z.pow2_bits_eqb by lia.
  destruct (Z.eqb_spec 5 n); case_bool_decide; done || lia.
Qed.

Lemma testbit_WS_EX_LAYERED (n : Z) :
  0 <= n -> Z.testbit WS_EX_LAYERED n = bool_decide (n = 19).
Proof.
  intros Hn. unfold WS_EX_LAYERED. change 0x00080000 with (2 ^ 19).
  rewrite Z.pow2_bits_eqb by lia.
  destruct (Z.eqb_spec 19 n); case_bool_decide; done || lia.
Qed.

(** The extended window style written by [_apply_clickthrough].  In settings
    mode the TRANSPARENT bit (bit 5) is cleared and every other bit keeps
    its value; in normal mode the TRANSPARENT and LAYERED (bit 19) bits are
    set and every other bit keeps its value. *)
Theorem apply_clickthrough_bits (a : AppWindow) :
  (_settings_mode a = true ->
     Z.testbit (ex_style (_apply_clickthrough a)) 5 = false /\
     forall n, 0 <= n -> n <> 5 ->
       Z.testbit (ex_style (_apply_clickthrough a)) n = Z.testbit (ex_style a) n) /\
  (_settings_mode a = false ->
     Z.testbit (ex_style (_apply_clickthrough a)) 5 = true /\
     Z.testbit (ex_style (_apply_clickthrough a)) 19 = true /\
     forall n, 0 <= n -> n <> 5 -> n <> 19 ->
       Z.testbit (ex_style (_apply_clickthrough a)) n = Z.testbit (ex_style a) n).
Proof.
  unfold _apply_clickthrough.
  split; intros ->; cbn -[Z.lor Z.land Z.lnot Z.testbit WS_EX_TRANSPARENT WS_EX_LAYERED].
  - split.
    + rewrite Z.land_spec, Z.lnot_spec, testbit_WS_EX_TRANSPARENT by lia.
      rewrite bool_decide_eq_true_2 by done. apply andb_false_r.
    + intros n Hn Hne.
      rewrite Z.land_spec, Z.lnot_spec, testbit_WS_EX_TRANSPARENT by lia.
      rewrite bool_decide_eq_false_2 by done. apply andb_true_r.
  - split; [| split].
    + rewrite !Z.lor_spec, testbit_WS_EX_TRANSPARENT by lia.
      rewrite bool_decide_eq_true_2 by done. apply orb_true_r.
    + rewrite !Z.lor_spec, testbit_WS_EX_LAYERED by lia.
      rewrite bool_decide_eq_true_2 by done. by rewrite orb_true_r.
    + intros n Hn Hne5 Hne19.
      rewrite !Z.lor_spec, testbit_WS_EX_TRANSPARENT, testbit_WS_EX_LAYERED by lia.
      rewrite !bool_decide_eq_false_2 by done. by rewrite !orb_false_r.
Qed.

Lemma apply_clickthrough_bits_witness :
  let a := mkApp (mkWindow init panel_init (255, 140, 0, 255) 2 "Solid")
             true true true "Close Settings" "Hide Guides" true 0x000800A8 in
  Z.testbit (ex_style (_apply_clickthrough a)) 5 = false /\
  Z.testbit (ex_style (_apply_clickthrough a)) 7 = Z.testbit (ex_style a) 7.
Proof.
  intros a.
  destruct (proj1 (apply_clickthrough_bits
              (mkApp (mkWindow init panel_init (255, 140, 0, 255) 2 "Solid")
                 true true true "Close Settings" "Hide Guides" true 0x000800A8)) eq_refl)
    as [H5 Hother].
  split; [exact H5 | apply Hother; lia].
Defined.

(** [toggleSettingsMode] switches everything together: afterwards the
    canvas is interactive, the panel is shown and the tray entry reads
    "Close Settings" exactly when settings mode is on, and the window is
    click-through (TRANSPARENT bit set) exactly when it is off.  The guides
    are untouched, and leaving settings mode clears hover and drag. *)
Theorem toggleSettingsMode_consistent (a : AppWindow) :
  let a' := toggleSettingsMode a in
  _settings_mode a' = negb (_settings_mode a) /\
  _interactive (canvas (window a')) = _settings_mode a' /\
  panel_shown a' = _settings_mode a' /\
  (tray_settings_text a' = if _settings_mode a' then "Close Settings" else "Open Settings") /\
  Z.testbit (ex_style a') 5 = negb (_settings_mode a') /\
  _guides (canvas (window a')) = _guides (canvas (window a)) /\
  _guides_visible a' = _guides_visible a /\
  (_settings_mode a' = false ->
     _hover_idx (canvas (window a')) = None /\
     _positioning_idx (canvas (window a')) = None).
Proof.
  destruct a as [w sm gv ps t0 t1 wv st]. unfold toggleSettingsMode.
  destruct sm; cbn -[Z.lor Z.land Z.lnot Z.testbit WS_EX_TRANSPARENT WS_EX_LAYERED];
    repeat split; try done.
  - rewrite !Z.lor_spec, testbit_WS_EX_TRANSPARENT by lia. apply orb_true_r.
  - rewrite Z.land_spec, Z.lnot_spec, testbit_WS_EX_TRANSPARENT by lia.
    apply andb_false_r.
Qed.

(** [toggleGuidesVisibility] flips the visibility of the window and the
    tray text with it, and leaves settings mode, the window style and the
    guides alone; in settings mode a drag or hover in progress is kept. *)
Theorem toggleGuidesVisibility_keeps_interaction (a : AppWindow) :
  let a' := toggleGuidesVisibility a in
  _guides_visible a' = negb (_guides_visible a) /\
  window_visible a' = _guides_visible a' /\
  (tray_guides_text a' = if _guides_visible a' then "Hide Guides" else "Show Guides") /\
  _settings_mode a' = _settings_mode a /\
  ex_style a' = ex_style a /\
  _guides (canvas (window a')) = _guides (canvas (window a)) /\
  (_settings_mode a = true ->
     _hover_idx (canvas (window a')) = _hover_idx (canvas (window a)) /\
     _positioning_idx (canvas (window a')) = _positioning_idx (canvas (window a))).
Proof.
  destruct a as [w sm gv ps t0 t1 wv st]. unfold toggleGuidesVisibility. simpl.
  repeat split; try done.
  - by destruct gv.
  - by destruct sm.
  - by simplify_eq/=.
  - by simplify_eq/=.
Qed.

Lemma toggleGuidesVisibility_keeps_interaction_witness :
  let a := mkApp (mkWindow (mkCanvas [Guide2 "v" 100] (Some 0) (Some 0) true None)
                    panel_init (255, 140, 0, 255) 2 "Solid")
             true true true "Close Settings" "Hide Guides" true 0 in
  _hover_idx (canvas (window (toggleGuidesVisibility a))) = Some 0 /\
  _positioning_idx (canvas (window (toggleGuidesVisibility a))) = Some 0.
Proof.
  intros a.
  apply (proj2 (proj2 (proj2 (proj2 (proj2 (proj2
           (toggleGuidesVisibility_keeps_interaction
              (mkApp (mkWindow (mkCanvas [Guide2 "v" 100] (Some 0) (Some 0) true None)
                        panel_init (255, 140, 0, 255) 2 "Solid")
                 true true true "Close Settings" "Hide Guides" true 0)))))))).
  reflexivity.
Defined.

Lemma toggleSettingsMode_consistent_witness :
  let a := mkApp (mkWindow (mkCanvas [Guide2 "v" 100] (Some 0) (Some 0) true None)
                    panel_init (255, 140, 0, 255) 2 "Solid")
             true true true "Close Settings" "Hide Guides" true 0x00080000 in
  _hover_idx (canvas (window (toggleSettingsMode a))) = None /\
  _positioning_idx (canvas (window (toggleSettingsMode a))) = None.
Proof.
  intros a.
  apply (proj2 (proj2 (proj2 (proj2 (proj2 (proj2 (proj2
           (toggleSettingsMode_consistent
              (mkApp (mkWindow (mkCanvas [Guide2 "v" 100] (Some 0) (Some 0) true None)
                        panel_init (255, 140, 0, 255) 2 "Solid")
                 true true true "Close Settings" "Hide Guides" true 0x00080000))))))))).
  reflexivity.
Defined.

(** ** Saving and loading *)

Lemma Guide_kwargs_saved_entry (g : Guide) :
  Guide_kwargs (saved_entry g) = Ok (reloaded g).
Proof.
  destruct g as [o p [[[r gr] b] al] t s]. unfold saved_entry, reloaded. simpl.
  rewrite bool_decide_eq_true_2; [reflexivity |].
  repeat (apply map_Forall_insert_2; [unfold Guide_params; set_solver |]).
  apply map_Forall_empty.
Qed.

Lemma load_guides_loop_acc (items : list pyval) : forall acc,
  exists gs, load_guides_loop items [] = Ok gs /\
             load_guides_loop items acc = Ok (acc ++ gs) /\
             (length gs <= length items)%nat.
Proof.
  induction items as [| item rest IH]; intros acc; simpl.
  - exists []. by rewrite app_nil_r.
  - destruct (Guide_kwargs item) as [g | err]; simpl.
    + destruct (IH [g]) as (gs & _ & Hg & Hlen).
      destruct (IH (acc ++ [g])) as (gs' & Hnil & Hacc & _).
      destruct (IH []) as (gs0 & Hnil0 & _ & Hlen0).
      rewrite Hnil in Hnil0. injection Hnil0 as <-.
      destruct (IH [g]) as (gs1 & Hnil1 & Hg1 & _).
      rewrite Hnil in Hnil1. injection Hnil1 as <-.
      exists (g :: gs'). rewrite Hg1, Hacc. split; [done |].
      split; [by rewrite <- app_assoc | simpl; lia].
    + destruct (IH acc) as (gs & Hnil & Hacc & Hlen).
      exists gs. split; [done |]. split; [done | lia].
Qed.

Lemma load_guides_all_malformed (items : list pyval) :
  Forall malformed items -> load_guides items = Ok [].
Proof.
  unfold load_guides. induction 1 as [| item rest Hbad _ IH]; simpl; [done |].
  destruct (Guide_kwargs item) as [g | err] eqn:Hk; [by destruct (Hbad g) | done].
Qed.

(** What is saved loads back.  When the ["guides"] value of the settings is
    what [_save_settings] wrote for a canvas, loading skips nothing: it
    yields one guide per saved guide, in the same order, with the same
    orientation, position, thickness and style, and the color as the list
    of its four channels. *)
Theorem save_then_load (c : OverlayCanvas) (m : gmap string pyval) :
  m !! "guides" = Some (saved_guides c) ->
  load_settings_guides (PDict m) = inr (reloaded <$> guides c).
Proof.
  intros Hm. unfold load_settings_guides, saved_guides in *. rewrite Hm. simpl.
  unfold load_guides.
  assert (forall gs acc,
            load_guides_loop (saved_entry <$> gs) acc = Ok (acc ++ (reloaded <$> gs))) as Hloop.
  { induction gs as [| g gs IH]; intros acc; simpl.
    - by rewrite app_nil_r.
    - rewrite Guide_kwargs_saved_entry. simpl. rewrite IH. by rewrite <- app_assoc. }
  by rewrite Hloop.
Qed.

Lemma save_then_load_witness :
  load_settings_guides
    (PDict (<["guides" :=
               saved_guides (mkCanvas [mkGuide "v" 100 (1, 2, 3, 4) 5 "Dashed"]
                               None None false None)]>
            (<["show_guides" := PBool true]> ∅)))
  = inr [mkGuideObj (PStr "v") (PInt 100) (PList [PInt 1; PInt 2; PInt 3; PInt 4])
           (PInt 5) (PStr "Dashed")].
Proof.
  apply (save_then_load
           (mkCanvas [mkGuide "v" 100 (1, 2, 3, 4) 5 "Dashed"] None None false None)).
  reflexivity.
Defined.

(** What a damaged settings value does to loading.  A value that is not a
    JSON object raises [AttributeError] and a ["guides"] value that is null,
    a boolean or a number raises [TypeError]: nothing catches either.  A
    missing ["guides"] key, and a ["guides"] value that is a string or an
    object, load no guide and raise nothing; and the loop over the items
    itself never raises. *)
Theorem load_settings_guides_damaged :
  (forall data, (forall m, data <> PDict m) ->
     load_settings_guides data = inl AttributeError_get) /\
  (forall m v, m !! "guides" = Some v ->
     match v with PNone | PBool _ | PInt _ | PFloat _ _ => True | _ => False end ->
     load_settings_guides (PDict m) = inl TypeError_not_iterable) /\
  (forall m, m !! "guides" = None -> load_settings_guides (PDict m) = inr []) /\
  (forall m v, m !! "guides" = Some v ->
     match v with PStr _ | PDict _ => True | _ => False end ->
     load_settings_guides (PDict m) = inr []) /\
  (forall data e, load_settings_guides data <> inl (FromLoop e)).
Proof.
  split; [| split; [| split; [| split]]].
  - intros data Hnd. destruct data; try done. by destruct (Hnd m).
  - intros m v Hm Hv. unfold load_settings_guides. rewrite Hm. by destruct v.
  - intros m Hm. unfold load_settings_guides. by rewrite Hm.
  - intros m v Hm Hv. unfold load_settings_guides. rewrite Hm.
    destruct v as [| | | | s | | | d]; try done; simpl.
    + rewrite load_guides_all_malformed; [done |].
      apply Forall_fmap, Forall_true. by intros a g.
    + rewrite load_guides_all_malformed; [done |].
      apply Forall_fmap, Forall_true. by intros kv g.
  - intros data e. unfold load_settings_guides.
    destruct data; try done.
    destruct (py_iter _) as [items |]; [| done].
    destruct (load_guides_loop_acc items []) as (gs & Hl & _).
    unfold load_guides. by rewrite Hl.
Qed.

Lemma load_settings_guides_damaged_witness :
  load_settings_guides (PList []) = inl AttributeError_get /\
  load_settings_guides (PDict (<["guides" := PInt 3]> ∅)) = inl TypeError_not_iterable /\
  load_settings_guides (PDict (<["guides" := PStr "vh"]> ∅)) = inr [].
Proof.
  split; [| split].
  - apply (proj1 load_settings_guides_damaged). intros m. discriminate.
  - apply (proj1 (proj2 load_settings_guides_damaged) _ (PInt 3)); [reflexivity | exact I].
  - apply (proj1 (proj2 (proj2 (proj2 load_settings_guides_damaged))) _ (PStr "vh"));
      [reflexivity | exact I].
Defined.

(** Skipping is per entry: loading a list of entries in two parts gives the
    guides of the first part followed by those of the second, and loading
    never yields more guides than there are entries. *)
Theorem load_guides_app (a b : list pyval) :
  exists ga gb,
    load_guides a = Ok ga /\ load_guides b = Ok gb /\
    load_guides (a ++ b) = Ok (ga ++ gb) /\
    (length ga <= length a)%nat.
Proof.
  unfold load_guides.
  destruct (load_guides_loop_acc a []) as (ga & Ha & _ & Hlen).
  exists ga. revert ga Ha Hlen.
  induction a as [| item rest IH]; intros ga Ha Hlen; simpl in *.
  - injection Ha as <-. destruct (load_guides_loop_acc b []) as (gb & Hb & _).
    exists gb. by rewrite Hb.
  - destruct (Guide_kwargs item) as [g | err]; simpl in *.
    + destruct (load_guides_loop_acc rest [g]) as (gs & Hnil & Hg & Hl).
      rewrite Hg in Ha. injection Ha as <-.
      destruct (IH gs Hnil Hl) as (gb & _ & Hb & Happ & _).
      exists gb. split; [done |]. split; [done |].
      destruct (load_guides_loop_acc (rest ++ b) [g]) as (gs' & Hnil' & -> & _).
      rewrite Happ in Hnil'. injection Hnil' as <-. split; [done | simpl; lia].
    + destruct (IH ga Ha) as (gb & _ & Hb & Happ & _).
      { destruct (load_guides_loop_acc rest []) as (gs & Hnil & _ & Hl).
        rewrite Ha in Hnil. by injection Hnil as <-. }
      exists gb. split; [done |]. split; [done |]. split; [done | lia].
Qed.

(** ** Highlight and grab *)

(** The guide a left press grabs need not be the guide that hovering at the
    same point highlights.  When the hover test answers [i] but a guide
    before [i] lies within the larger drag radius of the point, the press
    starts a drag of a guide before [i]. *)
Theorem press_can_grab_an_earlier_guide (e : QMouseEvent) (c : OverlayCanvas)
    (i : Z) (k : nat) (g : Guide) :
  _interactive c = true ->
  _positioning_idx c = None ->
  button e = LeftButton ->
  _findGuideAt c (ev_pos e) false = Some i ->
  Z.of_nat k < i ->
  _guides c !! k = Some g ->
  hit GUIDE_DRAG_RADIUS (ev_pos e) g ->
  exists c' j, mousePressEvent e c = Ok c' /\
    _positioning_idx c' = Some j /\ _hover_idx c' = Some j /\ 0 <= j < i.
Proof.
  intros Hint Hp Hb Hhover Hk Hg Hhit.
  destruct (_findGuideAt c (ev_pos e) true) as [j |] eqn:Hj.
  - assert (0 <= j < i) as Hji.
    { unfold _findGuideAt in Hj.
      apply loop_some in Hj as (k' & g' & -> & Hk' & _ & Hfirst).
      destruct (decide (k' <= k)%nat) as [Hle | Hgt]; [lia |].
      exfalso. apply (Hfirst k g); [lia | done | done]. }
    unfold mousePressEvent. rewrite Hint, Hb. simpl.
    change (_findGuideAt (with_last_mouse_pos (ev_pos e) c) (ev_pos e) true)
      with (_findGuideAt c (ev_pos e) true).
    rewrite Hp, Hj. simpl. eexists _, j. split; [reflexivity |]. done.
  - exfalso. unfold _findGuideAt in Hj. by eapply (proj1 (loop_none _ _ _ _) Hj).
Qed.

Lemma press_can_grab_an_earlier_guide_witness :
  _findGuideAt (mkCanvas [Guide2 "v" 100; Guide2 "v" 118] (Some 1) None true None)
    (118, 7) false = Some 1 /\
  exists c' j,
    mousePressEvent (mkEvent LeftButton 0 118 7)
      (mkCanvas [Guide2 "v" 100; Guide2 "v" 118] (Some 1) None true None) = Ok c' /\
    _positioning_idx c' = Some j /\ _hover_idx c' = Some j /\ 0 <= j < 1.
Proof.
  split; [reflexivity |].
  apply (press_can_grab_an_earlier_guide (mkEvent LeftButton 0 118 7)
           (mkCanvas [Guide2 "v" 100; Guide2 "v" 118] (Some 1) None true None)
           1 0%nat (Guide2 "v" 100)); try reflexivity.
  left. simpl. unfold GUIDE_DRAG_RADIUS. split; [reflexivity | lia].
Defined.

(** In every state reached from the freshly built canvas, a guide being
    dragged is the guide [paintEvent] picks for the highlight: the mode is
    interactive, the positioning index is valid and is the picked index,
    and when every number fits a C [int] the last line drawn is that
    guide's line with the bright pen. *)
Theorem reachable_drag_is_highlighted (ops : list op) (width height : Z) :
  exists c, run ops init = Ok c /\
    forall p, _positioning_idx c = Some p ->
      _interactive c = true /\
      highlight_idx c = Some p /\
      exists g, 0 <= p /\ _guides c !! Z.to_nat p = Some g /\
        (Forall drawable (_guides c) -> fits width -> fits height ->
         thickness g < 2 ^ 31 - 6 ->
         exists strokes,
           paintEvent width height c =
             inr (strokes ++
                  [(mkPen (255, 255, 0, 200) (Z.max 6 (thickness g + 6)) SolidLine true,
                    guide_line width height g)]) /\
           length strokes = length (_guides c)).
Proof.
  destruct (run_no_dangling ops init init_no_dangling) as (c & Hrun & _ & Hv).
  exists c. split; [done |]. intros p Hp.
  assert (passive_clear c) as Hpc.
  { apply (run_preserves passive_clear step_passive_clear ops init c); [| done].
    by intros _. }
  assert (_interactive c = true) as Hint.
  { destruct (_interactive c) eqn:Hi; [done |].
    destruct (Hpc Hi) as [_ Hnone]. congruence. }
  split; [done |].
  assert (highlight_idx c = Some p) as Hhi.
  { unfold highlight_idx. by rewrite Hint, Hp. }
  split; [done |]. rewrite Hp in Hv. simpl in Hv.
  destruct (getitem_in_range (_guides c) p Hv) as (g & Hg & _).
  exists g. split; [lia |]. split; [done |].
  intros Hall Hw Hh Ht.
  rewrite (paintEvent_with_highlight width height c p g) by (done || lia).
  rewrite bool_decide_eq_true_2 by done.
  eexists. split; [reflexivity |]. by rewrite length_fmap.
Qed.
